(** * Solar-irradiance forecasting pipeline: a shallow embedding

    The program under study is [improved_sarimax_model.py]: feature
    engineering over a time-indexed table ([load_and_preprocess_data]),
    multi-criterion feature selection ([feature_selection_analysis]),
    forward-chaining cross-validation ([cross_validation_sarimax]) and a
    weighted ensemble with a single-model fallback ([ensemble_forecast],
    [main]).

    Conventions of the embedding.
    - A pandas/numpy float is a real number; a missing value (NaN) is
      [None] in a [cell].
    - A DataFrame is a list of rows (row order = positional order); a
      pandas Series / numpy vector is a list.
    - A Python exception is an explicit result: [None] where a function can
      only fail in one way, [Raised e] where the claim is about exceptions.
    - Library routines whose numerical content is irrelevant to the claims
      (mutual information, F-statistics, model fitting) are Section
      variables that return a value or raise. *)

From Stdlib Require Import String.
From Stdlib Require Import Reals ZArith List Bool Arith Lia Lra.
Import ListNotations.

Set Implicit Arguments.

(* ================================================================== *)
(** * Part I.  Definitions                                              *)
(* ================================================================== *)

(** ** Cells and column operations *)

(** A float cell of a DataFrame; [None] is NaN. *)
Definition cell : Type := option R.

Definition is_present (c : cell) : bool :=
  match c with Some _ => true | None => false end.

(** Element-wise product of two columns, at one row: NaN is absorbing. *)
Definition cell_mul (a b : cell) : cell :=
  match a, b with
  | Some x, Some y => Some (x * y)%R
  | _, _ => None
  end.

(** All values of a window, provided none is missing. *)
Fixpoint all_present (l : list cell) : option (list R) :=
  match l with
  | [] => Some []
  | None :: _ => None
  | Some x :: t =>
      match all_present t with
      | Some xs => Some (x :: xs)
      | None => None
      end
  end.

Definition Rsum (l : list R) : R := fold_right Rplus 0%R l.

(** [Series.mean] of a window without missing values. *)
Definition mean (l : list R) : R := (Rsum l / INR (length l))%R.

(** Sum of squared deviations from the mean. *)
Definition ssqdm (l : list R) : R := Rsum (map (fun x => Rsqr (x - mean l)) l).

(** [Series.std] (sample standard deviation, [ddof = 1]). *)
Definition std (l : list R) : R := sqrt (ssqdm l / (INR (length l) - 1))%R.

(** [Series.shift(k)]: the value of row [i - k] at row [i], NaN on the
    first [k] rows; the length is unchanged. *)
Definition shift (k : nat) (col : list cell) : list cell :=
  firstn (length col) (repeat None k ++ col).

(** The trailing window of width [w] that ends at row [i] (inclusive). *)
Definition window (w i : nat) (col : list cell) : list cell :=
  firstn w (skipn (S i - w) col).

(** [Series.rolling(window=w).<stat>()] with the default
    [min_periods = w]: NaN until [w] rows are available and whenever the
    window holds a NaN. *)
Definition rolling (w : nat) (stat : list R -> R) (col : list cell) : list cell :=
  map (fun i => if w <=? S i
                then option_map stat (all_present (window w i col))
                else None)
      (seq 0 (length col)).

(** [enumerate]-style map: [f] receives the position of each element. *)
Fixpoint imap_from (A B : Type) (f : nat -> A -> B) (s : nat) (l : list A) : list B :=
  match l with
  | [] => []
  | x :: t => f s x :: imap_from f (S s) t
  end.

(** ** Timestamps *)

(** A pandas [Timestamp], down to the hour (the finer fields are zero for
    every timestamp this program builds). *)
Record Timestamp : Type := mkTimestamp {
  ts_year : Z;
  ts_month : Z;
  ts_day : Z;
  ts_hour : Z
}.

Definition is_leap (y : Z) : bool :=
  ((y mod 4 =? 0) && negb (y mod 100 =? 0) || (y mod 400 =? 0))%Z.

Definition days_in_month (y m : Z) : Z :=
  (if m =? 2 then (if is_leap y then 29 else 28)
   else if (m =? 4) || (m =? 6) || (m =? 9) || (m =? 11) then 30
   else 31)%Z.

(** The decimal digits of a non-negative integer, most significant first
    ([fuel] bounds their number). *)
Fixpoint decimal (fuel : nat) (n : Z) (acc : list Z) : list Z :=
  match fuel with
  | O => acc
  | S f => if (n <? 10)%Z then n :: acc
           else decimal f (n / 10) ((n mod 10)%Z :: acc)
  end.

(** [str(d)] for a value of the [date] column after [astype(int)] (an
    int64, so at most 19 digits), as the list of its digits.  [None] is a
    negative value: its string starts with a minus sign, which no directive
    of the format accepts. *)
Definition str_digits (d : Z) : option (list Z) :=
  if (d <? 0)%Z then None else Some (decimal 19 d []).

Definition in_range (lo hi c : Z) : bool := ((lo <=? c) && (c <=? hi))%Z.

(** The ways the directive [%m] can match at the head of a string, in the
    order in which the pattern [1[0-2]|0[1-9]|[1-9]] tries them, each with
    the month read and the rest of the string. *)
Definition month_alternatives (s : list Z) : list (Z * list Z) :=
  match s with
  | a :: b :: r =>
      (if (a =? 1)%Z && in_range 0 2 b then [((10 + b)%Z, r)] else []) ++
      (if (a =? 0)%Z && in_range 1 9 b then [(b, r)] else []) ++
      (if in_range 1 9 a then [(a, b :: r)] else [])
  | [a] => if in_range 1 9 a then [(a, [])] else []
  | [] => []
  end.

(** The same for [%d], pattern [3[0-1]|[1-2]\d|0[1-9]|[1-9]] (its last
    alternative, a space before a digit, cannot match a string of digits). *)
Definition day_alternatives (s : list Z) : list (Z * list Z) :=
  match s with
  | a :: b :: r =>
      (if (a =? 3)%Z && in_range 0 1 b then [((30 + b)%Z, r)] else []) ++
      (if in_range 1 2 a && in_range 0 9 b then [((10 * a + b)%Z, r)] else []) ++
      (if (a =? 0)%Z && in_range 1 9 b then [(b, r)] else []) ++
      (if in_range 1 9 a then [(a, b :: r)] else [])
  | [a] => if in_range 1 9 a then [(a, [])] else []
  | [] => []
  end.

(** Every way the pattern of [%Y%m%d] can match a prefix of the string, in
    backtracking order: four digits for the year, then each month
    alternative followed by each day alternative.  The matcher takes the
    first. *)
Definition strptime_matches (s : list Z) : list (Z * Z * Z * list Z) :=
  match s with
  | y1 :: y2 :: y3 :: y4 :: rest =>
      if in_range 0 9 y1 && in_range 0 9 y2 && in_range 0 9 y3 && in_range 0 9 y4
      then flat_map (fun mr =>
                       map (fun dr => ((1000 * y1 + 100 * y2 + 10 * y3 + y4)%Z,
                                       fst mr, fst dr, snd dr))
                           (day_alternatives (snd mr)))
                    (month_alternatives rest)
      else []
  | _ => []
  end.

(** A date a nanosecond [Timestamp] can hold (1677-09-22 .. 2262-04-11)
    whose day exists in its month. *)
Definition valid_date (y m dd : Z) : bool :=
  ((dd <=? days_in_month y m) &&
   (16770922 <=? y * 10000 + m * 100 + dd) &&
   (y * 10000 + m * 100 + dd <=? 22620411))%Z.

(** [pd.to_datetime(str(d), format='%Y%m%d')] for one value of the [date]
    column.  The string is matched against the pattern of the format; the
    first match must use up the whole string (otherwise "unconverted data
    remains"), and the fields must form a date.  One-digit months and days
    are accepted by the pattern, so 2015011 and 201511 both parse to
    2015-01-01.  The result carries no time of day: it falls at midnight.
    [None] stands for the raised error. *)
Definition to_datetime (d : Z) : option Timestamp :=
  match str_digits d with
  | None => None
  | Some s =>
      match strptime_matches s with
      | (y, m, dd, []) :: _ =>
          if valid_date y m dd then Some (mkTimestamp y m dd 0) else None
      | _ => None
      end
  end.

(** Days since 1970-01-01 of a civil date (proleptic Gregorian). *)
Definition days_from_civil (y m d : Z) : Z :=
  (let y' := if m <=? 2 then y - 1 else y in
   let era := y' / 400 in
   let yoe := y' - era * 400 in
   let mp := (m + 9) mod 12 in
   let doy := (153 * mp + 2) / 5 + d - 1 in
   let doe := yoe * 365 + yoe / 4 - yoe / 100 + doy in
   era * 146097 + doe - 719468)%Z.

(** [DatetimeIndex.dayofweek]: Monday is 0, Sunday is 6. *)
Definition dayofweek (t : Timestamp) : Z :=
  ((days_from_civil (ts_year t) (ts_month t) (ts_day t) + 3) mod 7)%Z.

(** Lexicographic order on timestamps. *)
Definition ts_leb (a b : Timestamp) : bool :=
  ((ts_year a <? ts_year b) ||
   ((ts_year a =? ts_year b) &&
    ((ts_month a <? ts_month b) ||
     ((ts_month a =? ts_month b) &&
      ((ts_day a <? ts_day b) ||
       ((ts_day a =? ts_day b) && (ts_hour a <=? ts_hour b)))))))%Z.

(** Strict order on timestamps. *)
Definition ts_ltb (a b : Timestamp) : bool := ts_leb a b && negb (ts_leb b a).

(** ** The raw table and the engineered table *)

(** One row of the table: [key] is the [date] column of the CSV file
    ([K = Z]) and, after [set_index], the index ([K = Timestamp]).  The four
    named columns are the ones the program reads; [extra] holds any further
    columns of the file. *)
Record Row (K : Type) : Type := mkRow {
  key : K;
  Temperature : cell;
  humidity : cell;
  wind_speed : cell;
  irradiance : cell;
  extra : list cell
}.

Definition RawRow : Type := Row Z.
Definition Obs : Type := Row Timestamp.

(** One row of the engineered table, before or after [dropna]. *)
Record EngRow : Type := mkEngRow {
  obs : Obs;
  hour : Z;
  day_of_week : Z;
  month : Z;
  season : Z;
  is_weekend : Z;
  hour_sin : R;
  hour_cos : R;
  month_sin : R;
  month_cos : R;
  temp_humidity : cell;
  temp_wind : cell;
  humidity_wind : cell;
  irradiance_lag1 : cell;
  irradiance_lag24 : cell;
  irradiance_lag168 : cell;
  irradiance_rolling_mean_24h : cell;
  irradiance_rolling_std_24h : cell
}.

(** The index label (timestamp) of an engineered row. *)
Definition index_of (r : EngRow) : Timestamp := key (obs r).

(** Lines 18-19: convert the [date] column and make it the index.  One
    unparsable date makes the whole conversion raise. *)
Definition set_date_index (r : RawRow) : option Obs :=
  match to_datetime (key r) with
  | Some t => Some (mkRow t (Temperature r) (humidity r) (wind_speed r)
                          (irradiance r) (extra r))
  | None => None
  end.

Fixpoint convert_dates (raw : list RawRow) : option (list Obs) :=
  match raw with
  | [] => Some []
  | r :: rest =>
      match set_date_index r, convert_dates rest with
      | Some o, Some os => Some (o :: os)
      | _, _ => None
      end
  end.

(** Line 22: the date window, 2015-01-01 through 2016-12-31. *)
Definition window_start : Timestamp := mkTimestamp 2015 1 1 0.
Definition window_end : Timestamp := mkTimestamp 2016 12 31 0.

Definition in_date_range (o : Obs) : bool :=
  ts_leb window_start (key o) && ts_leb (key o) window_end.

Definition filter_date_range (df : list Obs) : list Obs :=
  filter in_date_range df.

(** Lines 25-49: the derived columns of row [i], whose observation is [o],
    in the date-filtered table [df]. *)
Definition add_features (df : list Obs) (i : nat) (o : Obs) : EngRow :=
  let irr := map (@irradiance Timestamp) df in
  let h := ts_hour (key o) in
  let dow := dayofweek (key o) in
  let m := ts_month (key o) in
  {| obs := o;
     hour := h;
     day_of_week := dow;
     month := m;
     season := ((m mod 12) / 3 + 1)%Z;
     is_weekend := if ((dow =? 5) || (dow =? 6))%Z then 1%Z else 0%Z;
     hour_sin := sin (2 * PI * IZR h / 24);
     hour_cos := cos (2 * PI * IZR h / 24);
     month_sin := sin (2 * PI * IZR m / 12);
     month_cos := cos (2 * PI * IZR m / 12);
     temp_humidity := cell_mul (Temperature o) (humidity o);
     temp_wind := cell_mul (Temperature o) (wind_speed o);
     humidity_wind := cell_mul (humidity o) (wind_speed o);
     irradiance_lag1 := nth i (shift 1 irr) None;
     irradiance_lag24 := nth i (shift 24 irr) None;
     irradiance_lag168 := nth i (shift 168 irr) None;
     irradiance_rolling_mean_24h := nth i (rolling 24 mean irr) None;
     irradiance_rolling_std_24h := nth i (rolling 24 std irr) None |}.

Definition engineer (df : list Obs) : list EngRow :=
  imap_from (add_features df) 0 df.

(** The columns derived from a lag or a rolling window. *)
Definition lag_rolling_present (r : EngRow) : bool :=
  is_present (irradiance_lag1 r) && is_present (irradiance_lag24 r) &&
  is_present (irradiance_lag168 r) &&
  is_present (irradiance_rolling_mean_24h r) &&
  is_present (irradiance_rolling_std_24h r).

(** No missing value among the columns read from the file. *)
Definition row_present (K : Type) (r : Row K) : bool :=
  is_present (Temperature r) && is_present (humidity r) &&
  is_present (wind_speed r) && is_present (irradiance r) &&
  forallb is_present (extra r).

(** A row that [dropna] keeps: no NaN in any column.  The calendar and
    cyclical columns are computed from the index and are never NaN. *)
Definition complete (r : EngRow) : bool :=
  row_present (obs r) &&
  is_present (temp_humidity r) && is_present (temp_wind r) &&
  is_present (humidity_wind r) && lag_rolling_present r.

(** Line 52. *)
Definition dropna (t : list EngRow) : list EngRow := filter complete t.

(** [load_and_preprocess_data], from the rows [read_csv] returned on;
    [None] when the date conversion raises. *)
Definition load_and_preprocess_data (raw : list RawRow) : option (list EngRow) :=
  match convert_dates raw with
  | Some df => Some (dropna (engineer (filter_date_range df)))
  | None => None
  end.

(** ** Results of calls *)

(** The exceptions (subclasses of [Exception]) the program can meet. *)
Inductive exn : Type :=
| AttributeError
| IndexError
| ValueError
| KeyError
| ModelError (msg : string).

(** What a Python call does: return a value or raise. *)
Inductive outcome (A : Type) : Type :=
| Returned (a : A)
| Raised (e : exn).

Arguments Raised {A} e.

(** ** Feature selection *)

(** The training table by columns, in column order. *)
Definition Table : Type := list (string * list R).

Definition columns (t : Table) : list string := map fst t.

(** [train_data[c]]; [None] is the [KeyError] of an absent column. *)
Fixpoint get_column (t : Table) (c : string) : option (list R) :=
  match t with
  | [] => None
  | (n, v) :: rest => if String.eqb n c then Some v else get_column rest c
  end.

Definition column_or_empty (t : Table) (c : string) : list R :=
  match get_column t c with Some v => v | None => [] end.

Definition covxy (x y : list R) : R :=
  Rsum (map (fun p => (fst p - mean x) * (snd p - mean y))%R (combine x y)).

(** One entry of [DataFrame.corr()] (Pearson): the co-moment over the
    square root of the product of the two sums of squares, NaN when that
    divisor is zero (a constant column). *)
Definition pearson (x y : list R) : cell :=
  let d := sqrt (ssqdm x * ssqdm y) in
  if Req_dec_T d 0 then None else Some (covxy x y / d)%R.

(** Order of [sort_values(ascending=False)]: larger scores first, NaN
    last. *)
Definition score_geb (a b : cell) : bool :=
  match a, b with
  | Some x, Some y => if Rle_dec y x then true else false
  | Some _, None => true
  | None, Some _ => false
  | None, None => true
  end.

Fixpoint insert_desc (e : string * cell) (l : list (string * cell)) : list (string * cell) :=
  match l with
  | [] => [e]
  | h :: t => if score_geb (snd e) (snd h) then e :: l else h :: insert_desc e t
  end.

Definition sort_desc (l : list (string * cell)) : list (string * cell) :=
  fold_right insert_desc [] l.

(** [score > thr]; a comparison with NaN is false. *)
Definition above (thr : R) (c : cell) : bool :=
  match c with
  | Some v => if Rlt_dec thr v then true else false
  | None => false
  end.

Definition passing (thr : R) (ranking : list (string * cell)) : list string :=
  map fst (filter (fun e => above thr (snd e)) ranking).

Record Selection : Type := mkSelection {
  selected_features : list string;
  mi_df : list (string * cell);
  target_corr : list (string * cell);
  f_df : list (string * cell)
}.

(** Line 59: the columns other than the target, and the matrix
    [train_data[feature_cols]]. *)
Definition feature_columns (train_data : Table) (target_col : string) : list string :=
  filter (fun c => negb (String.eqb c target_col)) (columns train_data).

Definition feature_matrix (train_data : Table) (target_col : string) : list (list R) :=
  map (column_or_empty train_data) (feature_columns train_data target_col).

(** Lines 63-64 and 72-73: a two-column frame of names and scores, sorted;
    its construction raises [ValueError] when the two columns differ in
    length. *)
Definition score_frame (names : list string) (scores : list cell)
  : outcome (list (string * cell)) :=
  if length scores =? length names
  then Returned (sort_desc (combine names scores))
  else Raised ValueError.

(** Lines 67-68: the absolute correlation of every column, the target
    included, with the target, sorted. *)
Definition correlation_ranking (train_data : Table) (target_col : string)
           (y : list R) : list (string * cell) :=
  sort_desc
    (map (fun c => (c, option_map Rabs (pearson (column_or_empty train_data c) y)))
         (feature_columns train_data target_col ++ [target_col])).

Section FeatureSelector.

(** [sklearn.feature_selection.mutual_info_regression] and the F-scores
    of [f_regression]: one score per feature column, in column order, or
    the error they raise on an input they do not accept (too few rows, no
    feature column, ...). *)
Variable mutual_info_regression : list (list R) -> list R -> outcome (list cell).
Variable f_regression : list (list R) -> list R -> outcome (list cell).

(** [feature_selection_analysis], statement by statement: a missing target
    column raises [KeyError] at line 62, before the scorer is called; an
    error of a scorer is passed on.  [list(set(...))] is modelled by
    [nodup]: the members are the same, their order is unspecified in
    Python. *)
Definition feature_selection_analysis (train_data : Table) (target_col : string)
  : outcome Selection :=
  let feature_cols := feature_columns train_data target_col in
  match get_column train_data target_col with
  | None => Raised KeyError
  | Some y =>
      match mutual_info_regression (feature_matrix train_data target_col) y with
      | Raised e => Raised e
      | Returned mi_scores =>
          match score_frame feature_cols mi_scores with
          | Raised e => Raised e
          | Returned mi =>
              let corr := correlation_ranking train_data target_col y in
              match f_regression (feature_matrix train_data target_col) y with
              | Raised e => Raised e
              | Returned f_scores =>
                  match score_frame feature_cols f_scores with
                  | Raised e => Raised e
                  | Returned f =>
                      let top_mi_features := passing (1 / 100) mi in
                      let top_corr_features := passing (1 / 10) corr in
                      let top_f_features := passing 10 f in
                      Returned
                        {| selected_features :=
                             nodup string_dec
                                   (top_mi_features ++ top_corr_features ++
                                    top_f_features);
                           mi_df := mi;
                           target_corr := corr;
                           f_df := f |}
                  end
              end
          end
      end
  end.

End FeatureSelector.

(** ** Ensemble forecast and the fallback of [main] *)

(** The positional weights of line 160. *)
Definition weights : list R := [4 / 10; 3 / 10; 3 / 10]%R.

(** [acc += v] on one-dimensional numpy arrays: equal lengths add
    element-wise, a one-element [v] is broadcast, anything else raises. *)
Definition np_iadd (acc v : list R) : outcome (list R) :=
  if length v =? length acc
  then Returned (map (fun p => fst p + snd p)%R (combine acc v))
  else if length v =? 1
       then Returned (map (fun a => a + hd 0 v)%R acc)
       else Raised ValueError.

(** Lines 163-167: the accumulation loop; [i] is the position in the list
    of successful forecasts, [total] is [len(forecasts)]. *)
Fixpoint accumulate (total i : nat) (forecasts : list (list R)) (acc : list R)
  : outcome (list R) :=
  match forecasts with
  | [] => Returned acc
  | f :: rest =>
      let term :=
        match nth_error weights i with
        | Some wi => map (Rmult wi) f
        | None => map (fun v => v / INR total)%R f
        end in
      match np_iadd acc term with
      | Returned acc' => accumulate total (S i) rest acc'
      | Raised e => Raised e
      end
  end.

(** Lines 158-171. *)
Definition combine_forecasts (forecasts : list (list R)) : outcome (option (list R)) :=
  match forecasts with
  | [] => Returned None
  | f0 :: _ =>
      match accumulate (length forecasts) 0 forecasts (repeat 0%R (length f0)) with
      | Returned r => Returned (Some r)
      | Raised e => Raised e
      end
  end.

Section Ensemble.

(** [World] is whatever a fitted model's call may read or change (the
    models are library objects); [Exog] is the table of future exogenous
    values. *)
Variables World Exog : Type.

Definition method : Type := nat -> Exog -> World -> outcome (list R) * World.

(** A fitted model, seen through the two attributes the program probes:
    [predict] (pmdarima) and [forecast] (statsmodels); [None] is an
    absent attribute. *)
Record Model : Type := mkModel {
  predict : option method;
  forecast : option method
}.

(** Lines 146-151: the call made inside the [try]. *)
Definition attempt (m : Model) (n_periods : nat) (x : Exog) (w : World)
  : outcome (list R) * World :=
  match predict m with
  | Some p => p n_periods x w
  | None =>
      match forecast m with
      | Some f => f n_periods x w
      | None => (Raised AttributeError, w)
      end
  end.

(** Lines 144-156: every model is tried in turn; what one raises is
    caught and the model is skipped. *)
Fixpoint collect (models : list Model) (x : Exog) (n_periods : nat) (w : World)
  : list (list R) * World :=
  match models with
  | [] => ([], w)
  | m :: rest =>
      let (r, w1) := attempt m n_periods x w in
      let (fs, w2) := collect rest x n_periods w1 in
      match r with
      | Returned f => (f :: fs, w2)
      | Raised _ => (fs, w2)
      end
  end.

Definition ensemble_forecast (models : list Model) (test_exog : Exog)
           (n_periods : nat) (w : World) : outcome (option (list R)) * World :=
  let (forecasts, w') := collect models test_exog n_periods w in
  (combine_forecasts forecasts, w').

(** Every attempt of the loop raises, each taken in the state its
    predecessors left. *)
Fixpoint all_fail (models : list Model) (x : Exog) (n_periods : nat) (w : World)
  : Prop :=
  match models with
  | [] => True
  | m :: rest =>
      match attempt m n_periods x w with
      | (Raised _, w1) => all_fail rest x n_periods w1
      | (Returned _, _) => False
      end
  end.

(** Lines 326-327: [models[0].predict(...)], with no probing. *)
Definition fallback (models : list Model) (x : Exog) (n_periods : nat) (w : World)
  : outcome (list R) * World :=
  match models with
  | [] => (Raised IndexError, w)
  | best_model :: _ =>
      match predict best_model with
      | Some p => p n_periods x w
      | None => (Raised AttributeError, w)
      end
  end.

(** Lines 251-253 and 323-327 of [main]: the forecast that is evaluated. *)
Definition main_forecast (models : list Model) (test_exog : Exog)
           (n_periods : nat) (w : World) : outcome (list R) * World :=
  match ensemble_forecast models test_exog n_periods w with
  | (Returned (Some f), w') => (Returned f, w')
  | (Returned None, w') => fallback models test_exog n_periods w'
  | (Raised e, w') => (Raised e, w')
  end.

End Ensemble.

(** ** Cross-validation folds *)

(** [range(start, stop, step)] for a positive step. *)
Definition py_range (start stop step : nat) : list nat :=
  map (fun j => start + j * step) (seq 0 ((stop - start + step - 1) / step)).

(** [l[a:b]]. *)
Definition slice (A : Type) (a b : nat) (l : list A) : list A :=
  firstn (b - a) (skipn a l).

(** [sklearn.model_selection.TimeSeriesSplit(n_splits).split(X)] for
    [n_samples] rows, with the default [gap = 0], [test_size = None],
    [max_train_size = None]: pairs of position lists (train, validation).
    [None] is the [ValueError] of an unusable configuration. *)
Definition time_series_split (n_splits n_samples : nat)
  : option (list (list nat * list nat)) :=
  let n_folds := n_splits + 1 in
  let test_size := n_samples / n_folds in
  if n_splits <? 2 then None
  else if n_samples <? n_folds then None
  else if n_samples <=? test_size * n_splits then None
  else
    let indices := seq 0 n_samples in
    Some (map (fun test_start =>
                 (slice 0 test_start indices,
                  slice test_start (test_start + test_size) indices))
              (py_range (n_samples - n_splits * test_size) n_samples test_size)).

(** [data.iloc[idx]]. *)
Definition iloc (A : Type) (data : list A) (idx : list nat) : list A :=
  flat_map (fun i => match nth_error data i with Some x => [x] | None => [] end) idx.

(** A table whose timestamps strictly increase with the row position (no
    duplicate timestamps). *)
Definition strictly_increasing (Sample : Type) (index : Sample -> Timestamp)
           (data : list Sample) : Prop :=
  forall i j a b, i < j ->
    nth_error data i = Some a -> nth_error data j = Some b ->
    ts_ltb (index a) (index b) = true.

Section CrossValidation.

Variables Sample Score : Type.

(** Lines 184-204 for one fold: fit on the training slice, forecast the
    validation slice, compute the three metrics; the fit may raise. *)
Variable fit_and_score : list Sample -> list Sample -> outcome Score.

Definition cv_slices (data : list Sample) (n_splits : nat)
  : option (list (list Sample * list Sample)) :=
  option_map (map (fun f => (iloc data (fst f), iloc data (snd f))))
             (time_series_split n_splits (length data)).

Fixpoint run_folds (folds : list (list Sample * list Sample))
  : outcome (list Score) :=
  match folds with
  | [] => Returned []
  | (train_cv, val_cv) :: rest =>
      match fit_and_score train_cv val_cv with
      | Raised e => Raised e
      | Returned s =>
          match run_folds rest with
          | Returned ss => Returned (s :: ss)
          | Raised e => Raised e
          end
      end
  end.

Definition cross_validation_sarimax (data : list Sample) (n_splits : nat)
  : outcome (list Score) :=
  match cv_slices data n_splits with
  | Some folds => run_folds folds
  | None => Raised ValueError
  end.

(** The fit and the scoring of one fold go through. *)
Definition fold_succeeds (f : list Sample * list Sample) : Prop :=
  exists s, fit_and_score (fst f) (snd f) = Returned s.

End CrossValidation.

(** ** Error metrics and the train/test split of [main] *)

(** The input check shared by the sklearn metrics: both vectors have the
    same, non-zero number of samples; otherwise [ValueError]. *)
Definition consistent (y_true y_pred : list R) : bool :=
  (length y_true =? length y_pred) && negb (length y_true =? 0).

Definition abs_errors (y_true y_pred : list R) : list R :=
  map (fun p => Rabs (fst p - snd p)) (combine y_true y_pred).

Definition sq_errors (y_true y_pred : list R) : list R :=
  map (fun p => Rsqr (fst p - snd p)) (combine y_true y_pred).

(** [sklearn.metrics.mean_absolute_error]. *)
Definition mean_absolute_error (y_true y_pred : list R) : outcome R :=
  if consistent y_true y_pred then Returned (mean (abs_errors y_true y_pred))
  else Raised ValueError.

(** [sklearn.metrics.mean_squared_error]. *)
Definition mean_squared_error (y_true y_pred : list R) : outcome R :=
  if consistent y_true y_pred then Returned (mean (sq_errors y_true y_pred))
  else Raised ValueError.

(** [sklearn.metrics.r2_score] with its defaults: NaN below two samples;
    on a constant [y_true] the score is 1 for a perfect forecast and 0
    otherwise ([force_finite=True]). *)
Definition r2_score (y_true y_pred : list R) : outcome cell :=
  if consistent y_true y_pred then
    if length y_true <? 2 then Returned None
    else
      let numerator := Rsum (sq_errors y_true y_pred) in
      let denominator := ssqdm y_true in
      if Req_dec_T denominator 0
      then (if Req_dec_T numerator 0 then Returned (Some 1%R)
            else Returned (Some 0%R))
      else Returned (Some (1 - numerator / denominator)%R)
  else Raised ValueError.

Record Metrics : Type := mkMetrics {
  mae : R;
  rmse : R;
  r2 : cell
}.

(** Lines 200-202, 255-257 and 329-331: the three metrics, in the order
    the program computes them. *)
Definition evaluate (y_true y_pred : list R) : outcome Metrics :=
  match mean_absolute_error y_true y_pred with
  | Raised e => Raised e
  | Returned a =>
      match mean_squared_error y_true y_pred with
      | Raised e => Raised e
      | Returned m =>
          match r2_score y_true y_pred with
          | Raised e => Raised e
          | Returned r => Returned (mkMetrics a (sqrt m) r)
          end
      end
  end.

(** Line 214: [int(len(df) * 0.8)], the product taken over the reals. *)
Definition train_size (n : nat) : nat := (8 * n) / 10.

(** Lines 215-216: [df.iloc[:train_size]] and [df.iloc[train_size:]]. *)
Definition train_test_split (A : Type) (df : list A) : list A * list A :=
  (firstn (train_size (length df)) df, skipn (train_size (length df)) df).

Section MainEvaluation.

Variables World Exog : Type.

(** A model whose [predict], when it has one, gives the same outcome in
    every state. *)
Definition stateless_predict (m : Model World Exog) : Prop :=
  forall p, predict m = Some p ->
  forall n x w w', fst (p n x w) = fst (p n x w').

(** Lines 251-257 and 323-338 of [main]: forecast the test window (ensemble
    or fallback) and evaluate the forecast against the actual target. *)
Definition main_evaluate (actual : list R) (models : list (Model World Exog))
           (test_exog : Exog) (w : World) : outcome Metrics * World :=
  match main_forecast models test_exog (length actual) w with
  | (Returned f, w') => (evaluate actual f, w')
  | (Raised e, w') => (Raised e, w')
  end.

End MainEvaluation.

(** ** Sample inputs *)

(** Row [i] of an hourly table that starts on 2015-01-01 (24 rows share
    each date), with the given temperature and target. *)
Definition hourly_row (i : nat) (temp target : R) : RawRow :=
  mkRow (20150101 + Z.of_nat (i / 24))%Z (Some temp) (Some 1%R) (Some 1%R)
        (Some target) [].

(** One week: 168 rows. *)
Definition week_of_rows : list RawRow :=
  map (fun i => hourly_row i 1 (INR i)) (seq 0 168).

(** Two tables of 169 rows that differ only in the temperature of the last
    row, and two one-row continuations. *)
Definition table_a : list RawRow := week_of_rows ++ [hourly_row 168 1 0].

(** 169 complete rows dated 2014-01-01, before the date window. *)
Definition stale_table : list RawRow :=
  repeat (mkRow 20140101%Z (Some 1%R) (Some 1%R) (Some 1%R) (Some 1%R) []) 169.

(** A 48-row hourly series: sinusoidal target of period 24 and one noisy
    covariate (the temperature). *)
Definition synthetic48 : list RawRow :=
  map (fun i => mkRow (20150101 + Z.of_nat (i / 24))%Z
                      (Some (IZR (Z.of_nat ((i * 37) mod 11))))
                      (Some 1%R) (Some 1%R)
                      (Some (sin (2 * PI * INR i / 24)))
                      [])
      (seq 0 48).

(** The same sample tables after the date conversion. *)
Definition hourly_obs (i : nat) (temp target : R) : Obs :=
  mkRow (mkTimestamp 2015 1 (1 + Z.of_nat (i / 24)) 0) (Some temp) (Some 1%R)
        (Some 1%R) (Some target) [].

Definition week_of_obs : list Obs :=
  map (fun i => hourly_obs i 1 (INR i)) (seq 0 168).

Definition obs_a : list Obs := week_of_obs ++ [hourly_obs 168 1 0].

Definition synthetic48_obs : list Obs :=
  map (fun i => mkRow (mkTimestamp 2015 1 (1 + Z.of_nat (i / 24)) 0)
                      (Some (IZR (Z.of_nat ((i * 37) mod 11))))
                      (Some 1%R) (Some 1%R)
                      (Some (sin (2 * PI * INR i / 24)))
                      [])
      (seq 0 48).

(** The only rows of the engineered [table_a] and [table_b] that survive
    [dropna]: the ones at position 168. *)
Definition row_a : EngRow := add_features obs_a 168 (hourly_obs 168 1 0).

(** The five folds of a 12-row table. *)
Definition folds_of_12 : list (list nat * list nat) :=
  [([0; 1], [2; 3]);
   ([0; 1; 2; 3], [4; 5]);
   ([0; 1; 2; 3; 4; 5], [6; 7]);
   ([0; 1; 2; 3; 4; 5; 6; 7], [8; 9]);
   ([0; 1; 2; 3; 4; 5; 6; 7; 8; 9], [10; 11])].

(** Sample models.  The state counts the calls made so far. *)

(** A pmdarima-style model whose [predict] always raises. *)
Definition broken_model : Model nat unit :=
  mkModel (Some (fun _ _ w => (Raised (ModelError "fit did not converge"), S w)))
          None.

(** An object with neither [predict] nor [forecast]. *)
Definition bare_model : Model nat unit := mkModel None None.

(** A statsmodels-style model ([forecast] only) that predicts 10 at every
    step. *)
Definition steady_model : Model nat unit :=
  mkModel None (Some (fun n _ w => (Returned (repeat 10%R n), S w))).

(** A model whose [predict] raises on the very first call of the run and
    works afterwards. *)
Definition flaky_model : Model nat unit :=
  mkModel (Some (fun n _ w =>
                   if w =? 0 then (Raised (ModelError "transient"), S w)
                   else (Returned (repeat 1%R n), S w)))
          None.

Definition all_broken : list (Model nat unit) :=
  [broken_model; broken_model; bare_model].

Definition one_survivor : list (Model nat unit) :=
  [broken_model; broken_model; steady_model].

Definition flaky_first : list (Model nat unit) :=
  [flaky_model; broken_model; broken_model].

(** A six-row training table with one feature column and a non-constant
    target. *)
Definition train6 : Table :=
  [("Temperature"%string, [1; 2; 1; 2; 1; 2]%R);
   ("irradiance"%string, [0; 1; 0; 1; 0; 1]%R)].

(** A scorer with the input checks of the sklearn scorers (at least four
    rows, at least one feature column, else [ValueError]) that rates every
    feature it accepts NaN, so that it never selects anything itself. *)
Definition checked_nan_scores (X : list (list R)) (y : list R) : outcome (list cell) :=
  if (length y <? 4) || (length X =? 0) then Raised ValueError
  else Returned (map (fun _ => None) X).

(** A date-filtered table whose target is missing at position 3 only. *)
Definition gap_row (i : nat) : Obs :=
  mkRow (mkTimestamp 2015 1 (1 + Z.of_nat (i / 24)) 0)
        (Some 1%R) (Some 1%R) (Some 1%R)
        (if i =? 3 then None else Some 1%R) [].

Definition gap_obs : list Obs := map gap_row (seq 0 200).

(** A fitter that fails on the fold whose training slice has six rows. *)
Definition fit_fails_at_six (tr va : list nat) : outcome nat :=
  if length tr =? 6 then Raised (ModelError "singular") else Returned (length va).

Definition fit_succeeds (tr va : list nat) : outcome nat := Returned (length va).

(** A stateless model whose [predict] always raises, over any state. *)
Definition always_raises : Model nat unit :=
  mkModel (Some (fun _ _ w => (Raised (ModelError "no fit"), w))) None.

(** A model that returns three values whatever the horizon, after a model
    that honours the horizon. *)
Definition short_model : Model nat unit :=
  mkModel (Some (fun _ _ w => (Returned [1; 2; 3]%R, S w))) None.

Definition ragged_models : list (Model nat unit) := [steady_model; short_model].

(** An hourly table of 183 rows (15 rows survive the lags; [main] trains
    on the first 12 of them), before and after the date conversion. *)
Definition hourly183 : list RawRow :=
  map (fun i => hourly_row i 1 (INR i)) (seq 0 183).

Definition obs183 : list Obs :=
  map (fun i => hourly_obs i 1 (INR i)) (seq 0 183).

(** Twelve daily rows, one per date from 2015-01-01 on. *)
Definition daily12 : list Obs :=
  map (fun i => mkRow (mkTimestamp 2015 1 (1 + Z.of_nat i) 0)
                      (Some 1%R) (Some 1%R) (Some 1%R) (Some (INR i)) [])
      (seq 0 12).

(* ================================================================== *)
(** * Part II.  Properties                                              *)
(* ================================================================== *)

(** ** Positional maps *)

Lemma nth_error_lt (A : Type) (l : list A) (i : nat) (x : A) :
  nth_error l i = Some x -> i < length l.
Proof. intros H. apply nth_error_Some. now rewrite H. Qed.

Lemma imap_from_length (A B : Type) (f : nat -> A -> B) (l : list A) (s : nat) :
  length (imap_from f s l) = length l.
Proof.
  revert s; induction l as [|x t IH]; intros s; simpl; [reflexivity|].
  now rewrite IH.
Qed.

Lemma imap_from_app (A B : Type) (f : nat -> A -> B) (l1 l2 : list A) (s : nat) :
  imap_from f s (l1 ++ l2) = imap_from f s l1 ++ imap_from f (s + length l1) l2.
Proof.
  revert s; induction l1 as [|x t IH]; intros s; simpl.
  - now rewrite Nat.add_0_r.
  - rewrite IH. now replace (S s + length t) with (s + S (length t)) by lia.
Qed.

Lemma imap_from_ext (A B : Type) (f g : nat -> A -> B) (l : list A) (s : nat) :
  (forall i x, nth_error l i = Some x -> f (s + i) x = g (s + i) x) ->
  imap_from f s l = imap_from g s l.
Proof.
  revert s; induction l as [|x t IH]; intros s H; simpl; [reflexivity|].
  f_equal.
  - specialize (H 0 x eq_refl). now rewrite Nat.add_0_r in H.
  - apply IH. intros i y Hi.
    specialize (H (S i) y Hi). now replace (S s + i) with (s + S i) by lia.
Qed.

Lemma filter_imap_from_none (A B : Type) (p : B -> bool) (f : nat -> A -> B)
      (l : list A) (s : nat) :
  (forall i x, nth_error l i = Some x -> p (f (s + i) x) = false) ->
  filter p (imap_from f s l) = [].
Proof.
  revert s; induction l as [|x t IH]; intros s H; simpl; [reflexivity|].
  pose proof (H 0 x eq_refl) as H0. rewrite Nat.add_0_r in H0. rewrite H0.
  apply IH. intros i y Hi.
  specialize (H (S i) y Hi). now replace (S s + i) with (s + S i) by lia.
Qed.

Lemma filter_imap_from_all (A B : Type) (p : B -> bool) (f : nat -> A -> B)
      (l : list A) (s : nat) :
  (forall i x, nth_error l i = Some x -> p (f (s + i) x) = true) ->
  filter p (imap_from f s l) = imap_from f s l.
Proof.
  revert s; induction l as [|x t IH]; intros s H; simpl; [reflexivity|].
  pose proof (H 0 x eq_refl) as H0. rewrite Nat.add_0_r in H0. rewrite H0.
  f_equal. apply IH. intros i y Hi.
  specialize (H (S i) y Hi). now replace (S s + i) with (s + S i) by lia.
Qed.

Lemma skipn_imap_from (A B : Type) (f : nat -> A -> B) (l : list A) (s k : nat) :
  skipn k (imap_from f s l) = imap_from f (s + k) (skipn k l).
Proof.
  revert s l; induction k as [|k IH]; intros s l.
  - simpl. now rewrite Nat.add_0_r.
  - destruct l as [|x t]; simpl; [reflexivity|].
    rewrite IH. now replace (S s + k) with (s + S k) by lia.
Qed.

Lemma map_imap_from (A B C : Type) (g : B -> C) (f : nat -> A -> B)
      (l : list A) (s : nat) :
  map g (imap_from f s l) = imap_from (fun i x => g (f i x)) s l.
Proof.
  revert s; induction l as [|x t IH]; intros s; simpl; [reflexivity|].
  now rewrite IH.
Qed.

Lemma imap_from_id (A : Type) (l : list A) (s : nat) :
  imap_from (fun _ x => x) s l = l.
Proof.
  revert s; induction l as [|x t IH]; intros s; simpl; [reflexivity|].
  now rewrite IH.
Qed.

(** ** Shifted and rolling columns *)

Lemma nth_shift (k i : nat) (col : list cell) :
  i < length col ->
  nth i (shift k col) None = if i <? k then None else nth (i - k) col None.
Proof.
  intros Hi. unfold shift.
  rewrite nth_firstn. apply Nat.ltb_lt in Hi. rewrite Hi.
  destruct (i <? k) eqn:Hk.
  - apply Nat.ltb_lt in Hk.
    rewrite app_nth1 by (rewrite repeat_length; exact Hk).
    apply nth_repeat.
  - apply Nat.ltb_ge in Hk.
    rewrite app_nth2 by (rewrite repeat_length; exact Hk).
    now rewrite repeat_length.
Qed.

Lemma nth_shift_prefix (k i : nat) (pre post : list cell) :
  i < length pre ->
  nth i (shift k (pre ++ post)) None = nth i (shift k pre) None.
Proof.
  intros Hi.
  rewrite !nth_shift by (rewrite ?length_app; lia).
  destruct (i <? k); [reflexivity|].
  apply app_nth1. lia.
Qed.

Lemma nth_rolling (w i : nat) (stat : list R -> R) (col : list cell) :
  i < length col ->
  nth i (rolling w stat col) None =
  if w <=? S i then option_map stat (all_present (window w i col)) else None.
Proof.
  intros Hi. apply nth_error_nth. unfold rolling.
  rewrite nth_error_map, nth_error_seq.
  apply Nat.ltb_lt in Hi. now rewrite Hi.
Qed.

Lemma window_prefix (w i : nat) (pre post : list cell) :
  i < length pre -> w <= S i ->
  window w i (pre ++ post) = window w i pre.
Proof.
  intros Hi Hw. unfold window.
  rewrite skipn_app, firstn_app, length_skipn.
  replace (w - (length pre - (S i - w))) with 0 by lia.
  simpl. apply app_nil_r.
Qed.

Lemma nth_rolling_prefix (w i : nat) (stat : list R -> R) (pre post : list cell) :
  i < length pre ->
  nth i (rolling w stat (pre ++ post)) None = nth i (rolling w stat pre) None.
Proof.
  intros Hi.
  rewrite !nth_rolling by (rewrite ?length_app; lia).
  destruct (w <=? S i) eqn:Hw; [|reflexivity].
  apply Nat.leb_le in Hw. now rewrite window_prefix.
Qed.

Lemma all_present_forallb (l : list cell) :
  forallb is_present l = true -> exists xs, all_present l = Some xs.
Proof.
  induction l as [|[x|] t IH]; simpl; intros H.
  - now exists [].
  - destruct (IH H) as [xs Hxs]. rewrite Hxs. now exists (x :: xs).
  - discriminate.
Qed.

Lemma forallb_firstn (A : Type) (p : A -> bool) (n : nat) (l : list A) :
  forallb p l = true -> forallb p (firstn n l) = true.
Proof.
  rewrite !forallb_forall. intros H x Hx. apply H.
  now apply (In_nth_error (firstn n l)) in Hx as [j Hj];
    apply nth_error_In with j; rewrite nth_error_firstn in Hj;
    destruct (j <? n); [exact Hj | discriminate].
Qed.

Lemma forallb_skipn (A : Type) (p : A -> bool) (n : nat) (l : list A) :
  forallb p l = true -> forallb p (skipn n l) = true.
Proof.
  rewrite !forallb_forall. intros H x Hx. apply H.
  apply (In_nth_error (skipn n l)) in Hx as [j Hj].
  rewrite nth_error_skipn in Hj. now apply nth_error_In with (n + j).
Qed.

Lemma present_nth (i : nat) (col : list cell) :
  forallb is_present col = true -> i < length col ->
  is_present (nth i col None) = true.
Proof.
  intros H Hi. rewrite forallb_forall in H. apply H. now apply nth_In.
Qed.

Lemma present_shift (k i : nat) (col : list cell) :
  forallb is_present col = true -> i < length col ->
  is_present (nth i (shift k col) None) = (k <=? i).
Proof.
  intros H Hi. rewrite nth_shift by exact Hi.
  destruct (i <? k) eqn:Hk.
  - apply Nat.ltb_lt in Hk. symmetry. apply Nat.leb_gt. exact Hk.
  - apply Nat.ltb_ge in Hk. rewrite present_nth by (auto; lia).
    symmetry. now apply Nat.leb_le.
Qed.

Lemma present_rolling (w i : nat) (stat : list R -> R) (col : list cell) :
  forallb is_present col = true -> i < length col ->
  is_present (nth i (rolling w stat col) None) = (w <=? S i).
Proof.
  intros H Hi. rewrite nth_rolling by exact Hi.
  destruct (w <=? S i); [|reflexivity].
  destruct (all_present_forallb (window w i col)) as [xs Hxs].
  - unfold window. now apply forallb_firstn, forallb_skipn.
  - now rewrite Hxs.
Qed.

(** ** The engineered table *)

Lemma add_features_prefix (pre post : list Obs) (i : nat) (o : Obs) :
  i < length pre ->
  add_features (pre ++ post) i o = add_features pre i o.
Proof.
  intros Hi. unfold add_features. rewrite map_app.
  assert (Hl : i < length (map (@irradiance Timestamp) pre))
    by now rewrite length_map.
  now rewrite !nth_shift_prefix, !nth_rolling_prefix by exact Hl.
Qed.

Lemma engineer_app (pre post : list Obs) :
  engineer (pre ++ post) =
  engineer pre ++ imap_from (add_features (pre ++ post)) (length pre) post.
Proof.
  unfold engineer. rewrite imap_from_app. simpl. f_equal.
  apply imap_from_ext. intros i x Hi. simpl.
  apply add_features_prefix. exact (nth_error_lt _ _ Hi).
Qed.

Lemma engineer_length (df : list Obs) : length (engineer df) = length df.
Proof. apply imap_from_length. Qed.

Lemma map_obs_engineer (df : list Obs) : map obs (engineer df) = df.
Proof.
  unfold engineer. rewrite map_imap_from. simpl. apply imap_from_id.
Qed.

Lemma row_present_irradiance (df : list Obs) :
  forallb (@row_present Timestamp) df = true ->
  forallb is_present (map (@irradiance Timestamp) df) = true.
Proof.
  rewrite !forallb_forall. intros H c Hc.
  apply in_map_iff in Hc as [o [<- Ho]].
  specialize (H o Ho). unfold row_present in H.
  repeat (apply andb_prop in H as [H ?]). assumption.
Qed.

(** Before [dropna], a row of a table without missing values is complete
    exactly from position 168 on. *)
Lemma complete_add_features (df : list Obs) (i : nat) (o : Obs) :
  forallb (@row_present Timestamp) df = true ->
  nth_error df i = Some o ->
  complete (add_features df i o) = (168 <=? i).
Proof.
  intros Hdf Hi.
  assert (Ho : row_present o = true).
  { rewrite forallb_forall in Hdf. apply Hdf. eapply nth_error_In; eauto. }
  assert (Hlen : i < length (map (@irradiance Timestamp) df)).
  { rewrite length_map. exact (nth_error_lt _ _ Hi). }
  pose proof (row_present_irradiance df Hdf) as Hirr.
  remember (168 <=? i) as late eqn:H168.
  unfold complete, lag_rolling_present. simpl.
  rewrite !present_shift, !present_rolling by assumption.
  rewrite Ho. unfold row_present in Ho.
  repeat (apply andb_prop in Ho as [Ho ?]).
  destruct (Temperature o), (humidity o), (wind_speed o); try discriminate.
  cbn [cell_mul is_present andb].
  rewrite <- H168. symmetry in H168. destruct late.
  - apply Nat.leb_le in H168.
    rewrite (proj2 (Nat.leb_le 1 i)), (proj2 (Nat.leb_le 24 i)),
      (proj2 (Nat.leb_le 24 (S i))) by lia.
    reflexivity.
  - now rewrite !andb_false_r.
Qed.

(** Whatever the table holds, its first 168 rows lack the 168-step lag. *)
Lemma incomplete_before_168 (df : list Obs) (i : nat) (o : Obs) :
  nth_error df i = Some o -> i < 168 ->
  complete (add_features df i o) = false.
Proof.
  intros Hi Hlt.
  assert (Hlen : i < length (map (@irradiance Timestamp) df)).
  { rewrite length_map. exact (nth_error_lt _ _ Hi). }
  unfold complete, lag_rolling_present. simpl.
  rewrite (nth_shift 168) by exact Hlen.
  apply Nat.ltb_lt in Hlt. rewrite Hlt. simpl.
  now rewrite !andb_false_r.
Qed.

Lemma engineer_split (df : list Obs) (k : nat) :
  engineer df =
  imap_from (add_features df) 0 (firstn k df) ++
  imap_from (add_features df) (length (firstn k df)) (skipn k df).
Proof.
  unfold engineer. rewrite <- (firstn_skipn k df) at 2.
  now rewrite imap_from_app.
Qed.

Lemma skipn_engineer (df : list Obs) (k : nat) :
  skipn k (engineer df) = imap_from (add_features df) k (skipn k df).
Proof. unfold engineer. now rewrite skipn_imap_from. Qed.

(** [dropna] never keeps one of the first 168 rows. *)
Lemma dropna_engineer_skip (df : list Obs) :
  dropna (engineer df) = dropna (skipn 168 (engineer df)).
Proof.
  unfold dropna. rewrite (engineer_split df 168) at 1.
  rewrite filter_app, filter_imap_from_none.
  - cbn [app]. rewrite skipn_engineer.
    destruct (Nat.le_gt_cases 168 (length df)) as [Hle|Hgt].
    + now rewrite length_firstn, Nat.min_l by exact Hle.
    + now rewrite (skipn_all2 (n := 168)) by lia.
  - intros i x Hi. cbn [Nat.add].
    rewrite nth_error_firstn in Hi.
    destruct (i <? 168) eqn:Hlt; [|discriminate].
    apply Nat.ltb_lt in Hlt. now apply incomplete_before_168.
Qed.

(** On a table without missing values [dropna] removes exactly the first
    168 rows. *)
Lemma dropna_engineer_present (df : list Obs) :
  forallb (@row_present Timestamp) df = true ->
  dropna (engineer df) = skipn 168 (engineer df).
Proof.
  intros Hdf. rewrite dropna_engineer_skip, skipn_engineer.
  unfold dropna. apply filter_imap_from_all.
  intros i x Hi. rewrite nth_error_skipn in Hi.
  rewrite (complete_add_features df) by assumption.
  apply Nat.leb_le. lia.
Qed.

Lemma dropna_engineer_short (df : list Obs) :
  length df <= 168 -> dropna (engineer df) = [].
Proof.
  intros H. rewrite dropna_engineer_skip, skipn_all2; [reflexivity|].
  now rewrite engineer_length.
Qed.

Lemma In_imap_from (A B : Type) (f : nat -> A -> B) (l : list A) (s : nat) (y : B) :
  In y (imap_from f s l) ->
  exists i x, nth_error l i = Some x /\ y = f (s + i) x.
Proof.
  revert s; induction l as [|x t IH]; intros s; simpl; [tauto|].
  intros [<-|Hy].
  - exists 0, x. now rewrite Nat.add_0_r.
  - destruct (IH _ Hy) as (i & z & Hi & ->).
    exists (S i), z. split; [exact Hi|]. f_equal. lia.
Qed.

Lemma In_engineer (df : list Obs) (r : EngRow) :
  In r (engineer df) ->
  exists i o, nth_error df i = Some o /\ r = add_features df i o.
Proof. intros H. now apply In_imap_from in H. Qed.

(** ** Date conversion and the date window *)


Lemma convert_dates_length (raw : list RawRow) (df : list Obs) :
  convert_dates raw = Some df -> length df = length raw.
Proof.
  revert df; induction raw as [|r t IH]; simpl; intros df H.
  - now inversion H.
  - destruct (set_date_index r); [|discriminate].
    destruct (convert_dates t) as [os|]; [|discriminate].
    inversion H; subst. simpl. f_equal. now apply IH.
Qed.

Lemma to_datetime_inv (d : Z) (t : Timestamp) :
  to_datetime d = Some t ->
  exists s y m dd rest,
    str_digits d = Some s /\
    strptime_matches s = (y, m, dd, []) :: rest /\
    valid_date y m dd = true /\
    t = mkTimestamp y m dd 0.
Proof.
  unfold to_datetime. intros H.
  destruct (str_digits d) as [s|] eqn:Hs; [|discriminate].
  destruct (strptime_matches s) as [|[[[y m] dd] [|c r]] rest] eqn:Hm;
    try discriminate.
  destruct (valid_date y m dd) eqn:Hv; [|discriminate].
  inversion H; subst t. now exists s, y, m, dd, rest.
Qed.

Lemma set_date_index_spec (r : RawRow) (o : Obs) :
  set_date_index r = Some o ->
  ts_hour (key o) = 0%Z /\ row_present o = row_present r.
Proof.
  unfold set_date_index. intros H.
  destruct (to_datetime (key r)) as [t|] eqn:Ht; [|discriminate].
  apply to_datetime_inv in Ht as (s & y & m & dd & rest & _ & _ & _ & ->).
  inversion H; subst. now split.
Qed.

Lemma convert_dates_midnight (raw : list RawRow) (df : list Obs) (o : Obs) :
  convert_dates raw = Some df -> In o df -> ts_hour (key o) = 0%Z.
Proof.
  revert df; induction raw as [|r t IH]; simpl; intros df H Ho.
  - inversion H; subst. contradiction.
  - destruct (set_date_index r) as [o'|] eqn:Hr; [|discriminate].
    destruct (convert_dates t) as [os|]; [|discriminate].
    inversion H; subst. destruct Ho as [<-|Ho].
    + now apply set_date_index_spec in Hr.
    + now apply (IH os).
Qed.

Lemma convert_dates_present (raw : list RawRow) (df : list Obs) :
  convert_dates raw = Some df ->
  forallb (@row_present Z) raw = true ->
  forallb (@row_present Timestamp) df = true.
Proof.
  revert df; induction raw as [|r t IH]; simpl; intros df H Hp.
  - now inversion H.
  - destruct (set_date_index r) as [o|] eqn:Hr; [|discriminate].
    destruct (convert_dates t) as [os|]; [|discriminate].
    inversion H; subst. apply andb_prop in Hp as [Hp1 Hp2]. simpl.
    apply set_date_index_spec in Hr as [_ ->]. rewrite Hp1. now apply IH.
Qed.

Lemma filter_date_range_present (df : list Obs) :
  forallb (@row_present Timestamp) df = true ->
  forallb (@row_present Timestamp) (filter_date_range df) = true.
Proof.
  rewrite !forallb_forall. intros H o Ho. apply H.
  unfold filter_date_range in Ho. now apply filter_In in Ho.
Qed.

(** What [load_and_preprocess_data] returns on a table without missing
    values. *)
Lemma load_present (raw : list RawRow) (df : list Obs) :
  convert_dates raw = Some df ->
  forallb (@row_present Z) raw = true ->
  load_and_preprocess_data raw =
  Some (skipn 168 (engineer (filter_date_range df))).
Proof.
  intros Hc Hp. unfold load_and_preprocess_data. rewrite Hc. f_equal.
  apply dropna_engineer_present, filter_date_range_present.
  now apply convert_dates_present with raw.
Qed.


(** ** The sample tables, evaluated *)

Lemma load_table_a : load_and_preprocess_data table_a = Some [row_a].
Proof.
  rewrite (@load_present table_a obs_a eq_refl eq_refl).
  change (filter_date_range obs_a) with obs_a.
  now rewrite skipn_engineer.
Qed.


(** ** FeatureBuilder: dependence on later rows *)






(** ** FeatureBuilder: the rows removed by [dropna] *)

Lemma dropna_lag_rolling (t : list EngRow) :
  forallb lag_rolling_present (dropna t) = true.
Proof.
  apply forallb_forall. intros r Hr. unfold dropna in Hr.
  apply filter_In in Hr as [_ Hc]. unfold complete in Hc.
  now apply andb_prop in Hc as [_ Hc].
Qed.

(** C4 (as amended).  For a raw table without missing values whose rows
    inside the date window 2015-01-01 .. 2016-12-31 number at least 168,
    the engineered output consists exactly of the in-window rows from
    position 168 onward (the effective start moves forward by 168 rows),
    and no output row has a missing lag- or rolling-derived column. *)
Theorem window_drop_in_date_range (raw : list RawRow) (df : list Obs) :
  convert_dates raw = Some df ->
  forallb (@row_present Z) raw = true ->
  168 <= length (filter_date_range df) ->
  exists out,
    load_and_preprocess_data raw = Some out /\
    map obs out = skipn 168 (filter_date_range df) /\
    length out + 168 = length (filter_date_range df) /\
    forallb lag_rolling_present out = true.
Proof.
  intros Hc Hp Hlen.
  pose proof (convert_dates_present _ Hc Hp) as Hdf.
  apply filter_date_range_present in Hdf.
  exists (dropna (engineer (filter_date_range df))).
  split; [unfold load_and_preprocess_data; now rewrite Hc|].
  split; [|split].
  - rewrite (dropna_engineer_present _ Hdf).
    now rewrite <- skipn_map, map_obs_engineer.
  - rewrite (dropna_engineer_present _ Hdf).
    rewrite length_skipn, engineer_length. lia.
  - apply dropna_lag_rolling.
Qed.

Lemma window_drop_in_date_range_witness :
  exists out,
    load_and_preprocess_data table_a = Some out /\
    map obs out = skipn 168 (filter_date_range obs_a) /\
    length out + 168 = length (filter_date_range obs_a) /\
    forallb lag_rolling_present out = true.
Proof.
  apply (@window_drop_in_date_range table_a obs_a eq_refl eq_refl).
  vm_compute. lia.
Defined.

(** C4 (as stated) fails.  [stale_table] has 169 rows and no missing value,
    but every row is dated before the date window: the output is empty,
    whereas the input rows from position 168 onward are one row. *)
Lemma window_drop_counterexample :
  forallb (@row_present Z) stale_table = true /\
  168 <= length stale_table /\
  length (skipn 168 stale_table) = 1 /\
  load_and_preprocess_data stale_table = Some [].
Proof.
  split; [reflexivity|]. split; [vm_compute; lia|].
  split; reflexivity.
Qed.

(** C5 (as amended).  Every 48-row table is dropped whole: no row has the
    168-step lag available, so [dropna] leaves the output empty (48 rows
    removed, and no remaining row that could hold a missing value). *)
Theorem short_series_dropped_whole (raw : list RawRow) (df : list Obs) :
  length raw = 48 ->
  convert_dates raw = Some df ->
  load_and_preprocess_data raw = Some [].
Proof.
  intros Hlen Hc. unfold load_and_preprocess_data. rewrite Hc. f_equal.
  apply dropna_engineer_short.
  etransitivity; [apply filter_length_le|].
  rewrite (convert_dates_length _ Hc). lia.
Qed.

Lemma short_series_dropped_whole_witness :
  load_and_preprocess_data synthetic48 = Some [].
Proof.
  exact (@short_series_dropped_whole synthetic48 synthetic48_obs eq_refl eq_refl).
Defined.

(** C5 (as stated) fails.  On the 48-row synthetic series the number of
    rows removed is 48, not 167. *)
Lemma synthetic48_counterexample :
  exists out,
    load_and_preprocess_data synthetic48 = Some out /\
    length synthetic48 - length out = 48 /\
    length synthetic48 - length out <> 167.
Proof.
  assert (Hc : convert_dates synthetic48 = Some synthetic48_obs) by reflexivity.
  exists []. split.
  - unfold load_and_preprocess_data. rewrite Hc. apply f_equal.
    apply dropna_engineer_short.
    etransitivity; [apply filter_length_le|].
    rewrite (convert_dates_length _ Hc). unfold synthetic48.
    rewrite length_map, length_seq. lia.
  - unfold synthetic48. rewrite length_map, length_seq.
    split; [reflexivity|]. cbn [length Nat.sub]. lia.
Qed.

(** ** FeatureBuilder: calendar encodings *)

Lemma In_load (raw : list RawRow) (out : list EngRow) (r : EngRow) :
  load_and_preprocess_data raw = Some out -> In r out ->
  exists df i o,
    convert_dates raw = Some df /\ In o df /\
    r = add_features (filter_date_range df) i o.
Proof.
  unfold load_and_preprocess_data.
  destruct (convert_dates raw) as [df|]; [|discriminate].
  intros H Hr. inversion H; subst. unfold dropna in Hr.
  apply filter_In in Hr as [Hr _].
  apply In_engineer in Hr as (i & o & Hi & ->).
  exists df, i, o. split; [reflexivity|]. split; [|reflexivity].
  apply nth_error_In in Hi. unfold filter_date_range in Hi.
  now apply filter_In in Hi.
Qed.

(** C9.  In every row of the engineered output the hour encoding and the
    month encoding lie on the unit circle: sin^2 + cos^2 = 1, exactly. *)
Theorem cyclical_encodings_on_unit_circle
        (raw : list RawRow) (out : list EngRow) (r : EngRow) :
  load_and_preprocess_data raw = Some out -> In r out ->
  (Rsqr (hour_sin r) + Rsqr (hour_cos r) = 1)%R /\
  (Rsqr (month_sin r) + Rsqr (month_cos r) = 1)%R.
Proof.
  intros H Hr. destruct (@In_load raw out r H Hr) as (df & i & o & _ & _ & ->).
  cbn [hour_sin hour_cos month_sin month_cos add_features].
  split; apply sin2_cos2.
Qed.

Lemma cyclical_encodings_on_unit_circle_witness :
  (Rsqr (hour_sin row_a) + Rsqr (hour_cos row_a) = 1)%R /\
  (Rsqr (month_sin row_a) + Rsqr (month_cos row_a) = 1)%R.
Proof.
  apply (@cyclical_encodings_on_unit_circle table_a [row_a] row_a load_table_a).
  left. reflexivity.
Defined.

(** C10.  The index is parsed from a bare date, so every output row falls
    at midnight: its [hour] column is 0, [hour_sin] is 0 and [hour_cos]
    is 1, whatever the input. *)
Theorem hour_features_constant
        (raw : list RawRow) (out : list EngRow) (r : EngRow) :
  load_and_preprocess_data raw = Some out -> In r out ->
  ts_hour (key (obs r)) = 0%Z /\ hour r = 0%Z /\
  hour_sin r = 0%R /\ hour_cos r = 1%R.
Proof.
  intros H Hr. destruct (@In_load raw out r H Hr) as (df & i & o & Hc & Ho & ->).
  pose proof (@convert_dates_midnight _ _ o Hc Ho) as Hh.
  cbn [obs hour hour_sin hour_cos add_features]. rewrite Hh.
  replace (2 * PI * 0 / 24)%R with 0%R by (unfold Rdiv; ring).
  repeat split; [apply sin_0 | apply cos_0].
Qed.

Lemma hour_features_constant_witness :
  ts_hour (key (obs row_a)) = 0%Z /\ hour row_a = 0%Z /\
  hour_sin row_a = 0%R /\ hour_cos row_a = 1%R.
Proof.
  apply (@hour_features_constant table_a [row_a] row_a load_table_a).
  left. reflexivity.
Defined.

(** ** CrossValidator: the folds *)

Lemma firstn_seq_min (m a len : nat) :
  firstn m (seq a len) = seq a (Nat.min m len).
Proof.
  revert a len; induction m as [|m IH]; intros a [|len]; simpl; try reflexivity.
  now rewrite IH.
Qed.

Lemma In_slice_seq (a b n x : nat) :
  In x (slice a b (seq 0 n)) <-> a <= x /\ x < b /\ x < n.
Proof.
  unfold slice. rewrite skipn_seq, firstn_seq_min, in_seq. lia.
Qed.

Lemma py_range_count (k t n : nat) :
  0 < t -> k * t <= n -> (n - (n - k * t) + t - 1) / t = k.
Proof.
  intros Ht Hk.
  replace (n - (n - k * t) + t - 1) with (k * t + (t - 1)) by lia.
  rewrite Nat.div_add_l by lia. rewrite Nat.div_small by lia. lia.
Qed.

(** The folds in closed form: fold [j] validates on the [t] rows that
    start at [n - k * t + j * t] and trains on every row before them. *)
Lemma time_series_split_inv (k n : nat) (folds : list (list nat * list nat)) :
  time_series_split k n = Some folds ->
  let t := n / (k + 1) in
  2 <= k /\ 0 < t /\ k * t < n /\
  folds = map (fun j => (slice 0 (n - k * t + j * t) (seq 0 n),
                         slice (n - k * t + j * t) (n - k * t + j * t + t)
                               (seq 0 n)))
              (seq 0 k).
Proof.
  intros H. cbv zeta. unfold time_series_split in H. cbv zeta in H.
  set (t := n / (k + 1)) in *.
  destruct (k <? 2) eqn:H1; [discriminate|].
  destruct (n <? k + 1) eqn:H2; [discriminate|].
  destruct (n <=? t * k) eqn:H3; [discriminate|].
  apply Nat.ltb_ge in H1, H2. apply Nat.leb_gt in H3.
  assert (Ht : 0 < t) by (apply Nat.div_str_pos; lia).
  inversion H as [Hf]. clear H Hf.
  repeat split; try lia.
  unfold py_range. rewrite map_map.
  now rewrite py_range_count by lia.
Qed.

(** The folds of [TimeSeriesSplit], as row positions: there are [n_splits]
    of them, in each the training positions come before the validation
    positions, and the training positions of a fold are among those of the
    next. *)
Lemma fold_positions_ordered (n_splits n : nat) (folds : list (list nat * list nat)) :
  time_series_split n_splits n = Some folds ->
  length folds = n_splits /\
  (forall tr va, In (tr, va) folds ->
     tr <> [] /\ va <> [] /\ forall i j, In i tr -> In j va -> i < j) /\
  (forall k f g, nth_error folds k = Some f -> nth_error folds (S k) = Some g ->
     incl (fst f) (fst g)).
Proof.
  intros H. apply time_series_split_inv in H.
  cbv zeta in H. set (t := n / (n_splits + 1)) in H.
  destruct H as (Hk & Ht & Hkt & ->).
  split; [now rewrite length_map, length_seq|]. split.
  - intros tr va Hin. apply in_map_iff in Hin as (j & Hj & Hjk).
    apply in_seq in Hjk. inversion Hj; subst tr va; clear Hj.
    assert (Hb : n - n_splits * t + j * t + t <= n) by nia.
    repeat split.
    + intros E. assert (Hi : In 0 (slice 0 (n - n_splits * t + j * t) (seq 0 n)))
        by (apply In_slice_seq; lia).
      rewrite E in Hi. contradiction.
    + intros E.
      assert (Hi : In (n - n_splits * t + j * t)
                      (slice (n - n_splits * t + j * t)
                             (n - n_splits * t + j * t + t) (seq 0 n)))
        by (apply In_slice_seq; lia).
      rewrite E in Hi. contradiction.
    + intros i i' Hi Hi'. apply In_slice_seq in Hi, Hi'. lia.
  - intros k f g Hf Hg.
    rewrite nth_error_map in Hf, Hg.
    destruct (nth_error (seq 0 n_splits) k) as [a|] eqn:Ha; [|discriminate].
    destruct (nth_error (seq 0 n_splits) (S k)) as [b|] eqn:Hb; [|discriminate].
    pose proof (nth_error_lt _ _ Ha) as La. pose proof (nth_error_lt _ _ Hb) as Lb.
    rewrite length_seq in La, Lb.
    rewrite nth_error_seq in Ha, Hb.
    apply Nat.ltb_lt in La, Lb. rewrite La in Ha. rewrite Lb in Hb.
    inversion Ha; inversion Hb; subst a b; clear Ha Hb.
    inversion Hf; inversion Hg; subst f g; clear Hf Hg.
    cbn [fst]. intros x Hx. apply In_slice_seq in Hx. apply In_slice_seq. nia.
Qed.

(** The slices themselves: a fold trains on the first [ts] rows of the
    table and validates on the rows that follow them. *)
Lemma iloc_seq (A : Type) (data : list A) (a len : nat) :
  a + len <= length data ->
  iloc data (seq a len) = firstn len (skipn a data).
Proof.
  revert a; induction len as [|len IH]; intros a Hle; [reflexivity|].
  cbn [seq iloc flat_map].
  destruct (nth_error data a) as [x|] eqn:Hx.
  - change (flat_map _ (seq (S a) len)) with (iloc data (seq (S a) len)).
    rewrite IH by lia.
    rewrite <- (firstn_skipn a data) in Hx at 1.
    rewrite nth_error_app2 in Hx by (rewrite length_firstn; lia).
    rewrite length_firstn, Nat.min_l, Nat.sub_diag in Hx by lia.
    destruct (skipn a data) as [|y rest] eqn:Hs; [discriminate|].
    inversion Hx; subst y. cbn [app firstn]. f_equal.
    replace (S a) with (1 + a) by reflexivity.
    now rewrite <- skipn_skipn, Hs.
  - apply nth_error_None in Hx. lia.
Qed.

(** ** EnsembleForecaster *)

Section EnsembleFacts.

Variables World Exog : Type.
Implicit Types (models : list (Model World Exog)) (x : Exog) (w : World).

Lemma collect_all_fail models x (n : nat) w :
  all_fail models x n w -> fst (collect models x n w) = [].
Proof.
  revert w; induction models as [|m rest IH]; intros w; simpl; [reflexivity|].
  destruct (attempt m n x w) as [[f|e] w1]; [contradiction|].
  intros H. specialize (IH w1 H).
  destruct (collect rest x n w1) as [fs w2]. exact IH.
Qed.

Lemma collect_nil_all_fail models x (n : nat) w :
  fst (collect models x n w) = [] -> all_fail models x n w.
Proof.
  revert w; induction models as [|m rest IH]; intros w; simpl; [trivial|].
  destruct (attempt m n x w) as [[f|e] w1];
    specialize (IH w1); destruct (collect rest x n w1) as [fs w2]; simpl.
  - discriminate.
  - exact IH.
Qed.

Lemma combine_forecasts_none (forecasts : list (list R)) :
  combine_forecasts forecasts = Returned None -> forecasts = [].
Proof.
  destruct forecasts as [|f0 rest]; [reflexivity|]. simpl.
  destruct (np_iadd _ _) as [acc|e]; [|discriminate].
  destruct (accumulate _ _ rest acc); discriminate.
Qed.

Lemma ensemble_none_all_fail models x (n : nat) w w' :
  ensemble_forecast models x n w = (Returned None, w') ->
  all_fail models x n w /\ snd (collect models x n w) = w'.
Proof.
  unfold ensemble_forecast. intros H.
  destruct (collect models x n w) as [fs w2] eqn:Hc.
  inversion H as [[Hf Hw]]. apply combine_forecasts_none in Hf.
  split; [|reflexivity].
  apply collect_nil_all_fail. now rewrite Hc.
Qed.

End EnsembleFacts.

(** C7.  When every model's attempt raises, [ensemble_forecast] returns
    [None]: each failure is caught inside the loop, nothing is raised. *)
Theorem total_failure_returns_none
        (World Exog : Type) (models : list (Model World Exog))
        (test_exog : Exog) (n_periods : nat) (w : World) :
  all_fail models test_exog n_periods w ->
  fst (ensemble_forecast models test_exog n_periods w) = Returned None.
Proof.
  intros H. unfold ensemble_forecast.
  pose proof (collect_all_fail _ _ _ _ H) as Hc.
  destruct (collect models test_exog n_periods w) as [fs w']. simpl in *.
  now subst fs.
Qed.

Lemma total_failure_returns_none_witness :
  fst (ensemble_forecast all_broken tt 5 0) = Returned None.
Proof.
  apply (@total_failure_returns_none nat unit all_broken tt 5 0).
  exact I.
Defined.

(** C8.  When [ensemble_forecast] returns [None], the forecast [main] goes
    on with is whatever [predict] of the first model of the list gives in
    the state the ensemble left, although that model's own attempt raised
    during the combination (no check is made): its result, a forecast or
    a raised error, is the result of [main]. *)
Theorem fallback_uses_first_model
        (World Exog : Type) (m0 : Model World Exog) (rest : list (Model World Exog))
        (test_exog : Exog) (n_periods : nat) (w w' : World) :
  ensemble_forecast (m0 :: rest) test_exog n_periods w = (Returned None, w') ->
  (exists e w1, attempt m0 n_periods test_exog w = (Raised e, w1)) /\
  main_forecast (m0 :: rest) test_exog n_periods w =
  match predict m0 with
  | Some p => p n_periods test_exog w'
  | None => (Raised AttributeError, w')
  end.
Proof.
  intros H. split.
  - apply ensemble_none_all_fail in H as [Hall _]. simpl in Hall.
    destruct (attempt m0 n_periods test_exog w) as [[f|e] w1]; [contradiction|].
    now exists e, w1.
  - unfold main_forecast. now rewrite H.
Qed.

Lemma fallback_uses_first_model_witness :
  (exists e w1, attempt flaky_model 2 tt 0 = (Raised e, w1)) /\
  main_forecast flaky_first tt 2 0 = (Returned [1; 1]%R, 4).
Proof.
  exact (@fallback_uses_first_model nat unit flaky_model
           [broken_model; broken_model] tt 2 0 3 eq_refl).
Defined.

(** ** Degraded ensemble: one surviving forecast *)

Lemma combine_zeros (wi : R) (f : list R) :
  map (fun p => fst p + snd p)%R
      (combine (repeat 0%R (length f)) (map (Rmult wi) f)) =
  map (fun v => 0 + wi * v)%R f.
Proof.
  induction f as [|v t IH]; simpl; [reflexivity|]. now rewrite IH.
Qed.

(** A single surviving forecast is returned scaled by the first positional
    weight, 0.4. *)
Lemma single_survivor_scaled (f : list R) :
  combine_forecasts [f] = Returned (Some (map (fun v => 0 + 4 / 10 * v)%R f)).
Proof.
  unfold combine_forecasts, accumulate, np_iadd.
  cbn [nth_error weights]. rewrite length_map, repeat_length, Nat.eqb_refl.
  now rewrite combine_zeros.
Qed.

(** C2 (the code at the failing input).  Two models fail and the third
    forecasts 10 at each of 5 steps: [ensemble_forecast] returns 4 at each
    step, not the surviving forecast. *)
Theorem degraded_ensemble_scales_survivor :
  fst (ensemble_forecast one_survivor tt 5 0) =
  Returned (Some [4; 4; 4; 4; 4]%R) /\
  [4; 4; 4; 4; 4]%R <> repeat 10%R 5.
Proof.
  split.
  - unfold ensemble_forecast.
    change (collect one_survivor tt 5 0) with ([repeat 10%R 5], 3).
    cbn [fst]. rewrite single_survivor_scaled. cbn [repeat map].
    do 2 apply f_equal. repeat (apply f_equal2; [lra|]). reflexivity.
  - cbn [repeat]. intros H. inversion H. lra.
Qed.

(** ** FeatureSelector *)

Lemma Rsum_sqr_nonneg (g : R -> R) (l : list R) :
  (0 <= Rsum (map (fun x => Rsqr (g x)) l))%R.
Proof.
  induction l as [|a t IH]; simpl; [lra|].
  pose proof (Rle_0_sqr (g a)). lra.
Qed.

Lemma ssqdm_nonneg (l : list R) : (0 <= ssqdm l)%R.
Proof. apply Rsum_sqr_nonneg. Qed.

Lemma covxy_self (y : list R) : covxy y y = ssqdm y.
Proof.
  unfold covxy, ssqdm. generalize (mean y) as m. intros m.
  induction y as [|a t IH]; simpl; [reflexivity|].
  rewrite IH. reflexivity.
Qed.

(** A non-constant column correlates perfectly with itself. *)
Lemma pearson_self (y : list R) :
  ssqdm y <> 0%R -> pearson y y = Some 1%R.
Proof.
  intros Hy. unfold pearson.
  rewrite sqrt_square by apply ssqdm_nonneg.
  destruct (Req_dec_T (ssqdm y) 0) as [E|_]; [contradiction|].
  rewrite covxy_self. f_equal. now field.
Qed.

Lemma In_insert_desc (e x : string * cell) (l : list (string * cell)) :
  In x (insert_desc e l) <-> x = e \/ In x l.
Proof.
  induction l as [|h t IH]; simpl.
  - intuition congruence.
  - destruct (score_geb (snd e) (snd h)); simpl; [intuition congruence|].
    rewrite IH. intuition congruence.
Qed.

(** Sorting a ranking keeps its entries. *)
Lemma In_sort_desc (x : string * cell) (l : list (string * cell)) :
  In x (sort_desc l) <-> In x l.
Proof.
  induction l as [|h t IH]; simpl; [tauto|].
  rewrite In_insert_desc, IH. intuition congruence.
Qed.

Lemma In_passing (thr : R) (c : string) (v : cell) (ranking : list (string * cell)) :
  In (c, v) ranking -> above thr v = true -> In c (passing thr ranking).
Proof.
  intros Hin Hv. unfold passing. apply in_map_iff. exists (c, v).
  split; [reflexivity|]. apply filter_In. now split.
Qed.

(** What [feature_selection_analysis] returns once the target column is
    there and both scorers have returned one score per feature column. *)
Lemma feature_selection_returns
      (mutual_info_regression f_regression :
         list (list R) -> list R -> outcome (list cell))
      (train_data : Table) (target_col : string) (y : list R)
      (mi_scores f_scores : list cell) :
  get_column train_data target_col = Some y ->
  mutual_info_regression (feature_matrix train_data target_col) y =
  Returned mi_scores ->
  length mi_scores = length (feature_columns train_data target_col) ->
  f_regression (feature_matrix train_data target_col) y = Returned f_scores ->
  length f_scores = length (feature_columns train_data target_col) ->
  feature_selection_analysis mutual_info_regression f_regression
                             train_data target_col =
  Returned
    {| selected_features :=
         nodup string_dec
               (passing (1 / 100)
                        (sort_desc (combine (feature_columns train_data target_col)
                                            mi_scores)) ++
                passing (1 / 10) (correlation_ranking train_data target_col y) ++
                passing 10
                        (sort_desc (combine (feature_columns train_data target_col)
                                            f_scores)));
       mi_df := sort_desc (combine (feature_columns train_data target_col) mi_scores);
       target_corr := correlation_ranking train_data target_col y;
       f_df := sort_desc (combine (feature_columns train_data target_col) f_scores) |}.
Proof.
  intros Hy Hmi Hlmi Hf Hlf. unfold feature_selection_analysis, score_frame.
  rewrite Hy, Hmi, Hlmi, Nat.eqb_refl, Hf, Hlf, Nat.eqb_refl. reflexivity.
Qed.

(** The target passes the correlation criterion whenever it is not
    constant. *)
Lemma target_passes_correlation (train_data : Table) (target_col : string)
      (y : list R) :
  get_column train_data target_col = Some y ->
  ssqdm y <> 0%R ->
  In target_col (passing (1 / 10) (correlation_ranking train_data target_col y)).
Proof.
  intros Hy Hnc. apply In_passing with (v := Some 1%R).
  - apply In_sort_desc. apply in_map_iff. exists target_col. split.
    + unfold column_or_empty. rewrite Hy, (@pearson_self y Hnc).
      cbn [option_map]. now rewrite Rabs_R1.
    + apply in_or_app. right. now left.
  - unfold above. destruct (Rlt_dec (1 / 10) 1) as [_|Hn]; [reflexivity|].
    exfalso. apply Hn. lra.
Qed.

(** C3 (what the code does).  On every table that the two scorers accept
    (each returns one score per feature column; on a table they reject,
    [feature_selection_analysis] raises their error and selects nothing),
    whenever the target column is not constant, the call returns a
    selection and the target itself is among the selected features: it
    enters through the correlation ranking, where it correlates perfectly
    with itself. *)
Theorem target_is_selected
        (mutual_info_regression f_regression :
           list (list R) -> list R -> outcome (list cell))
        (train_data : Table) (target_col : string) (y : list R)
        (mi_scores f_scores : list cell) :
  get_column train_data target_col = Some y ->
  mutual_info_regression (feature_matrix train_data target_col) y =
  Returned mi_scores ->
  length mi_scores = length (feature_columns train_data target_col) ->
  f_regression (feature_matrix train_data target_col) y = Returned f_scores ->
  length f_scores = length (feature_columns train_data target_col) ->
  ssqdm y <> 0%R ->
  exists sel,
    feature_selection_analysis mutual_info_regression f_regression
                               train_data target_col = Returned sel /\
    In target_col (selected_features sel).
Proof.
  intros Hy Hmi Hlmi Hf Hlf Hnc.
  eexists. split; [exact (feature_selection_returns _ _ _ _ Hy Hmi Hlmi Hf Hlf)|].
  cbn [selected_features].
  apply nodup_In. apply in_or_app. right. apply in_or_app. left.
  exact (target_passes_correlation _ _ Hy Hnc).
Qed.

Lemma ssqdm_train6_target : ssqdm [0; 1; 0; 1; 0; 1]%R <> 0%R.
Proof.
  unfold ssqdm, mean, Rsum, Rsqr. cbn [map fold_right length INR].
  intros H. field_simplify in H. lra.
Qed.

Lemma target_is_selected_witness :
  exists sel,
    feature_selection_analysis checked_nan_scores checked_nan_scores
                               train6 "irradiance" = Returned sel /\
    In "irradiance"%string (selected_features sel).
Proof.
  exact (@target_is_selected checked_nan_scores checked_nan_scores
           train6 "irradiance" [0; 1; 0; 1; 0; 1]%R [None] [None]
           eq_refl eq_refl eq_refl eq_refl eq_refl ssqdm_train6_target).
Defined.

(** ** Further properties of the pipeline *)

(** X1.  Row [i] of the engineered table, before [dropna], is a function of
    the first [i + 1] rows of the date-filtered table: rows appended after a
    prefix leave the rows of the prefix as they were. *)
Theorem engineer_row_prefix (pre post : list Obs) (i : nat) :
  i < length pre ->
  nth_error (engineer (pre ++ post)) i = nth_error (engineer pre) i.
Proof.
  intros Hi. rewrite engineer_app.
  apply nth_error_app1. now rewrite engineer_length.
Qed.

Lemma engineer_row_prefix_witness :
  nth_error (engineer (obs_a ++ [hourly_obs 169 3 7])) 168 =
  nth_error (engineer obs_a) 168.
Proof.
  apply (@engineer_row_prefix obs_a [hourly_obs 169 3 7] 168).
  vm_compute. lia.
Defined.

Lemma np_iadd_same_length (acc v : list R) :
  length v = length acc ->
  exists r, np_iadd acc v = Returned r /\ length r = length acc.
Proof.
  intros H. unfold np_iadd. rewrite H, Nat.eqb_refl. eexists.
  split; [reflexivity|].
  rewrite length_map, length_combine, H. apply Nat.min_id.
Qed.

Lemma accumulate_length (h total : nat) (forecasts : list (list R)) :
  Forall (fun f => length f = h) forecasts ->
  forall i acc, length acc = h ->
  exists r, accumulate total i forecasts acc = Returned r /\ length r = h.
Proof.
  induction 1 as [|f rest Hf _ IH]; intros i acc Hacc; simpl.
  - now exists acc.
  - destruct (np_iadd_same_length acc
                (match nth_error weights i with
                 | Some wi => map (Rmult wi) f
                 | None => map (fun v => (v / INR total)%R) f
                 end)) as (r & Hr & Hlen).
    + destruct (nth_error weights i); rewrite length_map; congruence.
    + rewrite Hr. apply IH. congruence.
Qed.

(** X2.  When at least one model succeeds and every successful forecast has
    the requested length, so has the ensemble forecast, and nothing is raised. *)
Theorem ensemble_length_is_horizon
        (h : nat) (f0 : list R) (rest : list (list R)) :
  Forall (fun f => length f = h) (f0 :: rest) ->
  exists r, combine_forecasts (f0 :: rest) = Returned (Some r) /\ length r = h.
Proof.
  intros HF. unfold combine_forecasts.
  destruct (accumulate_length (length (f0 :: rest)) HF 0
              (repeat 0%R (length f0))) as (r & Hr & Hlen).
  - rewrite repeat_length. now inversion HF.
  - rewrite Hr. now exists r.
Qed.

Lemma ensemble_length_is_horizon_witness :
  exists r, combine_forecasts [repeat 10%R 5; repeat 1%R 5] = Returned (Some r) /\ length r = 5.
Proof.
  apply (@ensemble_length_is_horizon 5 (repeat 10%R 5) [repeat 1%R 5]).
  repeat constructor.
Defined.

Lemma get_column_In (t : Table) (c : string) (y : list R) :
  get_column t c = Some y -> In c (columns t).
Proof.
  induction t as [|[n v] rest IH]; simpl; [discriminate|].
  destruct (String.eqb n c) eqn:E.
  - apply String.eqb_eq in E. now left.
  - intros H. right. now apply IH.
Qed.

Lemma In_passing_inv (thr : R) (c : string) (ranking : list (string * cell)) :
  In c (passing thr ranking) -> In c (map fst ranking).
Proof.
  unfold passing. intros H. apply in_map_iff in H as (e & <- & He).
  apply filter_In in He as [He _]. exact (in_map fst ranking e He).
Qed.

Lemma map_fst_sort_desc (c : string) (l : list (string * cell)) :
  In c (map fst (sort_desc l)) -> In c (map fst l).
Proof.
  intros H. apply in_map_iff in H as (e & <- & He).
  apply (proj1 (In_sort_desc e l)) in He. exact (in_map fst l e He).
Qed.

Lemma In_fst_combine (A B : Type) (a : A) (l : list A) (l' : list B) :
  In a (map fst (combine l l')) -> In a l.
Proof.
  intros H. apply in_map_iff in H as ([x y] & <- & Hxy).
  now apply in_combine_l in Hxy.
Qed.

(** X4.  Every selected feature is a column of the training table: apart from
    the target, which the correlation ranking lets in, the selection is
    made of non-target columns. *)
Theorem selected_are_columns
        (mutual_info_regression f_regression :
           list (list R) -> list R -> outcome (list cell))
        (train_data : Table) (target_col : string) :
  match feature_selection_analysis mutual_info_regression f_regression
                                   train_data target_col with
  | Returned sel =>
      forall c, In c (selected_features sel) ->
                In c (columns train_data) /\
                (c = target_col \/
                 In c (filter (fun c => negb (String.eqb c target_col))
                              (columns train_data)))
  | Raised _ => True
  end.
Proof.
  unfold feature_selection_analysis, score_frame.
  destruct (get_column train_data target_col) as [y|] eqn:Hy; [|trivial].
  destruct (mutual_info_regression _ y) as [ms|]; [|trivial].
  destruct (length ms =? _); [|trivial].
  destruct (f_regression _ y) as [fs|]; [|trivial].
  destruct (length fs =? _); [|trivial].
  cbn [selected_features]. intros c Hc. apply nodup_In in Hc.
  unfold correlation_ranking, feature_columns in Hc.
  set (fc := filter (fun c => negb (String.eqb c target_col)) (columns train_data))
    in *.
  assert (H : c = target_col \/ In c fc).
  { apply in_app_or in Hc as [Hc|Hc]; [|apply in_app_or in Hc as [Hc|Hc]].
    - right. apply In_passing_inv, map_fst_sort_desc in Hc.
      now apply In_fst_combine in Hc.
    - apply In_passing_inv, map_fst_sort_desc in Hc.
      rewrite map_map in Hc. cbn [fst] in Hc. rewrite map_id in Hc.
      apply in_app_or in Hc as [Hc|[Hc|[]]]; [now right | now left].
    - right. apply In_passing_inv, map_fst_sort_desc in Hc.
      now apply In_fst_combine in Hc. }
  split; [|exact H].
  destruct H as [->|H].
  - now apply get_column_In with y.
  - unfold fc in H. now apply filter_In in H.
Qed.

(** X5.  The slices of [cross_validation_sarimax]: fold [j] trains on the first
    [ts] rows of the table and validates on the [t] rows that follow. *)
Theorem cv_slices_follow_table_order
        (Sample : Type) (data : list Sample) (n_splits : nat) :
  match cv_slices data n_splits with
  | Some slices =>
      length slices = n_splits /\
      forall j tr va, nth_error slices j = Some (tr, va) ->
        let t := length data / (n_splits + 1) in
        let ts := length data - n_splits * t + j * t in
        0 < ts /\ 0 < t /\ ts + t <= length data /\
        tr = firstn ts data /\ va = firstn t (skipn ts data)
  | None => True
  end.
Proof.
  unfold cv_slices.
  destruct (time_series_split n_splits (length data)) as [folds|] eqn:H;
    [|exact I].
  apply time_series_split_inv in H. cbv zeta in H.
  set (n := length data) in *. set (t := n / (n_splits + 1)) in *.
  destruct H as (Hk & Ht & Hkt & ->). cbn [option_map].
  split; [now rewrite !length_map, length_seq|].
  intros j tr va Hj. cbv zeta.
  rewrite !nth_error_map, nth_error_seq in Hj.
  destruct (j <? n_splits) eqn:Hjk; [|discriminate].
  apply Nat.ltb_lt in Hjk. cbn [option_map Nat.add fst snd] in Hj.
  inversion Hj as [[Htr Hva]]. clear Hj.
  assert (Hb : n - n_splits * t + j * t + t <= n) by nia.
  repeat split; try lia.
  - unfold slice. rewrite skipn_seq, firstn_seq_min. cbn [Nat.add skipn].
    rewrite iloc_seq by (fold n; lia).
    cbn [skipn]. f_equal. lia.
  - unfold slice. rewrite skipn_seq, firstn_seq_min. cbn [Nat.add].
    rewrite iloc_seq by (fold n; lia).
    f_equal. lia.
Qed.

Lemma time_series_split_some (n_splits n : nat) :
  2 <= n_splits -> n_splits + 1 <= n ->
  exists folds, time_series_split n_splits n = Some folds /\ length folds = n_splits.
Proof.
  intros Hk Hn. unfold time_series_split.
  set (t := n / (n_splits + 1)).
  assert (Ht : 0 < t) by (apply Nat.div_str_pos; lia).
  assert (Hm : t * (n_splits + 1) <= n)
    by (unfold t; rewrite Nat.mul_comm; apply Nat.Div0.mul_div_le).
  destruct (n_splits <? 2) eqn:H1; [apply Nat.ltb_lt in H1; lia|].
  destruct (n <? n_splits + 1) eqn:H2; [apply Nat.ltb_lt in H2; lia|].
  destruct (n <=? t * n_splits) eqn:H3; [apply Nat.leb_le in H3; nia|].
  eexists. split; [reflexivity|].
  unfold py_range. rewrite !length_map, length_seq.
  apply py_range_count; [exact Ht | nia].
Qed.

(** X6.  [TimeSeriesSplit] yields its folds whenever there are at least two
    splits and more rows than splits. *)
Theorem time_series_split_defined (n_splits n : nat) :
  2 <= n_splits -> n_splits + 1 <= n ->
  exists folds, time_series_split n_splits n = Some folds /\ length folds = n_splits.
Proof. exact (@time_series_split_some n_splits n). Qed.

Lemma time_series_split_defined_witness :
  exists folds, time_series_split 5 12 = Some folds /\ length folds = 5.
Proof.
  apply (@time_series_split_defined 5 12); lia.
Defined.

(** ** FeatureBuilder: dates, calendar columns and missing values *)

Lemma in_range_spec (lo hi c : Z) :
  in_range lo hi c = true <-> (lo <= c <= hi)%Z.
Proof. unfold in_range. rewrite andb_true_iff, !Z.leb_le. tauto. Qed.

(** A month field is one or two digits of the string and lies in 1..12. *)
Lemma month_alternatives_In (s r : list Z) (m : Z) :
  In (m, r) (month_alternatives s) ->
  (1 <= m <= 12)%Z /\
  ((exists a b, s = a :: b :: r /\ m = (10 * a + b)%Z) \/ s = m :: r).
Proof.
  destruct s as [|a [|b s]]; cbn [month_alternatives].
  - intros [].
  - destruct (in_range 1 9 a) eqn:E; [|intros []].
    intros [H|[]]. apply pair_equal_spec in H as [Hv Hr]; subst. apply in_range_spec in E.
    split; [lia | now right].
  - intros H. apply in_app_or in H as [H|H]; [|apply in_app_or in H as [H|H]].
    + destruct ((a =? 1)%Z && in_range 0 2 b) eqn:E; [|destruct H].
      destruct H as [H|[]]. apply pair_equal_spec in H as [Hv Hr]; subst.
      apply andb_prop in E as [Ea Eb]. apply Z.eqb_eq in Ea.
      apply in_range_spec in Eb. split; [lia|]. left. exists a, b. split; [reflexivity | lia].
    + destruct ((a =? 0)%Z && in_range 1 9 b) eqn:E; [|destruct H].
      destruct H as [H|[]]. apply pair_equal_spec in H as [Hv Hr]; subst.
      apply andb_prop in E as [Ea Eb]. apply Z.eqb_eq in Ea.
      apply in_range_spec in Eb. split; [lia|]. left. exists a, m.
      split; [reflexivity | lia].
    + destruct (in_range 1 9 a) eqn:E; [|destruct H].
      destruct H as [H|[]]. apply pair_equal_spec in H as [Hv Hr]; subst. apply in_range_spec in E.
      split; [lia | now right].
Qed.

(** A day field is one or two digits of the string and lies in 1..31. *)
Lemma day_alternatives_In (s r : list Z) (dd : Z) :
  In (dd, r) (day_alternatives s) ->
  (1 <= dd <= 31)%Z /\
  ((exists a b, s = a :: b :: r /\ dd = (10 * a + b)%Z) \/ s = dd :: r).
Proof.
  destruct s as [|a [|b s]]; cbn [day_alternatives].
  - intros [].
  - destruct (in_range 1 9 a) eqn:E; [|intros []].
    intros [H|[]]. apply pair_equal_spec in H as [Hv Hr]; subst. apply in_range_spec in E.
    split; [lia | now right].
  - intros H.
    apply in_app_or in H as [H|H];
      [|apply in_app_or in H as [H|H]; [|apply in_app_or in H as [H|H]]].
    + destruct ((a =? 3)%Z && in_range 0 1 b) eqn:E; [|destruct H].
      destruct H as [H|[]]. apply pair_equal_spec in H as [Hv Hr]; subst.
      apply andb_prop in E as [Ea Eb]. apply Z.eqb_eq in Ea.
      apply in_range_spec in Eb. split; [lia|]. left. exists a, b.
      split; [reflexivity | lia].
    + destruct (in_range 1 2 a && in_range 0 9 b) eqn:E; [|destruct H].
      destruct H as [H|[]]. apply pair_equal_spec in H as [Hv Hr]; subst.
      apply andb_prop in E as [Ea Eb]. apply in_range_spec in Ea, Eb.
      split; [lia|]. left. exists a, b. split; [reflexivity | lia].
    + destruct ((a =? 0)%Z && in_range 1 9 b) eqn:E; [|destruct H].
      destruct H as [H|[]]. apply pair_equal_spec in H as [Hv Hr]; subst.
      apply andb_prop in E as [Ea Eb]. apply Z.eqb_eq in Ea.
      apply in_range_spec in Eb. split; [lia|]. left. exists a, dd.
      split; [reflexivity | lia].
    + destruct (in_range 1 9 a) eqn:E; [|destruct H].
      destruct H as [H|[]]. apply pair_equal_spec in H as [Hv Hr]; subst. apply in_range_spec in E.
      split; [lia | now right].
Qed.

(** A match of the pattern: four digits of year, then a month field, then
    a day field. *)
Lemma strptime_matches_In (s r : list Z) (y m dd : Z) :
  In (y, m, dd, r) (strptime_matches s) ->
  exists y1 y2 y3 y4 rest rm,
    s = y1 :: y2 :: y3 :: y4 :: rest /\
    y = (1000 * y1 + 100 * y2 + 10 * y3 + y4)%Z /\
    In (m, rm) (month_alternatives rest) /\
    In (dd, r) (day_alternatives rm).
Proof.
  destruct s as [|y1 [|y2 [|y3 [|y4 rest]]]]; cbn [strptime_matches];
    try (intros []).
  destruct (_ && _); [|intros []].
  intros H. apply in_flat_map in H as ([m' rm] & Hm & H).
  apply in_map_iff in H as ([d' r'] & E & Hd). cbn [fst snd] in *.
  inversion E; subst. now exists y1, y2, y3, y4, rest, rm.
Qed.

(** What a successful conversion has read. *)
Lemma to_datetime_fields (d : Z) (t : Timestamp) :
  to_datetime d = Some t ->
  exists s rm,
    str_digits d = Some s /\
    In (ts_month t, rm) (month_alternatives (skipn 4 s)) /\
    In (ts_day t, []) (day_alternatives rm) /\
    ts_year t = fold_left (fun v c => (10 * v + c)%Z) (firstn 4 s) 0%Z /\
    4 <= length s /\
    (ts_day t <= days_in_month (ts_year t) (ts_month t))%Z /\
    ts_hour t = 0%Z.
Proof.
  intros H.
  apply to_datetime_inv in H as (s & y & m & dd & rest & Hs & Hm & Hv & ->).
  assert (Hin : In (y, m, dd, @nil Z) (strptime_matches s))
    by (rewrite Hm; now left).
  apply strptime_matches_In in Hin
    as (y1 & y2 & y3 & y4 & rs & rm & -> & -> & Hmo & Hda).
  exists (y1 :: y2 :: y3 :: y4 :: rs), rm.
  cbn [ts_year ts_month ts_day ts_hour skipn firstn fold_left length].
  unfold valid_date in Hv. apply andb_prop in Hv as [Hv _].
  apply andb_prop in Hv as [Hv _]. apply Z.leb_le in Hv.
  repeat split; try assumption; try lia.
Qed.

Lemma to_datetime_month_day (d : Z) (t : Timestamp) :
  to_datetime d = Some t ->
  (1 <= ts_month t <= 12 /\
   1 <= ts_day t <= days_in_month (ts_year t) (ts_month t) /\
   ts_hour t = 0)%Z.
Proof.
  intros H.
  apply to_datetime_fields in H
    as (s & rm & _ & Hm & Hd & _ & _ & Hv & Hh).
  apply month_alternatives_In in Hm as [Hm _].
  apply day_alternatives_In in Hd as [Hd _]. lia.
Qed.

Lemma decimal_more (f : nat) (n : Z) (acc : list Z) :
  (10 <= n)%Z ->
  decimal (S f) n acc = decimal f (n / 10) ((n mod 10)%Z :: acc).
Proof.
  intros H. cbn [decimal]. now rewrite (proj2 (Z.ltb_ge n 10) H).
Qed.

Lemma decimal_done (f : nat) (n : Z) (acc : list Z) :
  (n < 10)%Z -> decimal (S f) n acc = n :: acc.
Proof.
  intros H. cbn [decimal]. now rewrite (proj2 (Z.ltb_lt n 10) H).
Qed.

(** [str] of an integer of eight digits. *)
Lemma str_digits_eight (d : Z) :
  (10000000 <= d <= 99999999)%Z ->
  str_digits d =
  Some [d / 10 / 10 / 10 / 10 / 10 / 10 / 10;
        (d / 10 / 10 / 10 / 10 / 10 / 10) mod 10;
        (d / 10 / 10 / 10 / 10 / 10) mod 10;
        (d / 10 / 10 / 10 / 10) mod 10;
        (d / 10 / 10 / 10) mod 10;
        (d / 10 / 10) mod 10;
        (d / 10) mod 10;
        d mod 10]%Z.
Proof.
  intros H. unfold str_digits.
  rewrite (proj2 (Z.ltb_ge d 0)) by lia.
  do 7 (rewrite decimal_more by (Z.to_euclidean_division_equations; lia)).
  rewrite decimal_done by (Z.to_euclidean_division_equations; lia).
  reflexivity.
Qed.

(** On an integer of eight digits the conversion reads two digits of month
    and two of day: the parsed date spells the integer back. *)
Lemma to_datetime_eight_digits (d : Z) (t : Timestamp) :
  (10000000 <= d <= 99999999)%Z ->
  to_datetime d = Some t ->
  (ts_year t * 10000 + ts_month t * 100 + ts_day t = d)%Z.
Proof.
  intros Hd H.
  apply to_datetime_fields in H
    as (s & rm & Hs & Hm & Hday & Hy & _ & _ & _).
  rewrite (str_digits_eight Hd) in Hs. inversion Hs; subst s; clear Hs.
  cbn [skipn firstn fold_left] in Hm, Hy.
  apply month_alternatives_In in Hm as [_ Hm].
  apply day_alternatives_In in Hday as [_ Hday].
  destruct Hm as [(a & b & E & Hm)|E].
  - injection E as Ea Eb Erm. subst rm.
    destruct Hday as [(a' & b' & E' & Hday)|E']; [|discriminate].
    injection E' as Ea' Eb'. subst.
    Z.to_euclidean_division_equations. lia.
  - injection E as Ea Erm. subst rm.
    destruct Hday as [(a' & b' & E' & Hday)|E']; discriminate.
Qed.

(** Shorter integers are read with fields of one digit. *)
Lemma to_datetime_one_digit_fields :
  to_datetime 2015011 = Some (mkTimestamp 2015 1 1 0) /\
  to_datetime 201511 = Some (mkTimestamp 2015 1 1 0) /\
  to_datetime 20150132 = None /\
  to_datetime 20150229 = None /\
  to_datetime 20160229 = Some (mkTimestamp 2016 2 29 0).
Proof. repeat split. Qed.

(** X8.  A date that parses is a calendar date: its month lies in 1..12,
    its day in 1..the length of that month (29 for the February of a leap
    year), and it carries no time of day.  An integer of eight digits is
    read with two digits of month and two of day, so the parsed date spells
    it back (year * 10000 + month * 100 + day is the integer); a shorter
    integer that parses is read with fields of one digit and is not spelt
    back (2015011 is 2015-01-01). *)
Theorem to_datetime_reads_calendar_date (d : Z) (t : Timestamp) :
  to_datetime d = Some t ->
  (1 <= ts_month t <= 12 /\
   1 <= ts_day t <= days_in_month (ts_year t) (ts_month t) /\
   ts_hour t = 0 /\
   (10000000 <= d <= 99999999 ->
    ts_year t * 10000 + ts_month t * 100 + ts_day t = d))%Z.
Proof.
  intros H. destruct (to_datetime_month_day _ H) as (Hm & Hd & Hh).
  repeat split; try lia.
  intros Hd8. exact (to_datetime_eight_digits Hd8 H).
Qed.

Lemma to_datetime_reads_calendar_date_witness :
  (1 <= ts_month (mkTimestamp 2016 2 29 0) <= 12 /\
   1 <= ts_day (mkTimestamp 2016 2 29 0) <=
   days_in_month (ts_year (mkTimestamp 2016 2 29 0))
                 (ts_month (mkTimestamp 2016 2 29 0)) /\
   ts_hour (mkTimestamp 2016 2 29 0) = 0 /\
   (10000000 <= 20160229 <= 99999999 ->
    ts_year (mkTimestamp 2016 2 29 0) * 10000 +
    ts_month (mkTimestamp 2016 2 29 0) * 100 +
    ts_day (mkTimestamp 2016 2 29 0) = 20160229))%Z.
Proof.
  exact (@to_datetime_reads_calendar_date 20160229 (mkTimestamp 2016 2 29 0)
           eq_refl).
Defined.

Lemma convert_dates_In (raw : list RawRow) (df : list Obs) (o : Obs) :
  convert_dates raw = Some df -> In o df ->
  exists r, In r raw /\ to_datetime (key r) = Some (key o).
Proof.
  revert df; induction raw as [|r t IH]; simpl; intros df H Ho.
  - inversion H; subst. contradiction.
  - destruct (set_date_index r) as [o'|] eqn:Hr; [|discriminate].
    destruct (convert_dates t) as [os|]; [|discriminate].
    inversion H; subst. destruct Ho as [<-|Ho].
    + exists r. split; [now left|]. unfold set_date_index in Hr.
      destruct (to_datetime (key r)); [|discriminate]. now inversion Hr.
    + destruct (IH os eq_refl Ho) as (r' & Hin & Hk).
      exists r'. split; [now right | exact Hk].
Qed.

(** The rows of the output, traced back: each is the engineered form of an
    in-window row and passed [dropna]. *)
Lemma In_load_inv (raw : list RawRow) (out : list EngRow) (r : EngRow) :
  load_and_preprocess_data raw = Some out -> In r out ->
  exists df i o,
    convert_dates raw = Some df /\
    nth_error (filter_date_range df) i = Some o /\
    r = add_features (filter_date_range df) i o /\
    complete r = true.
Proof.
  unfold load_and_preprocess_data.
  destruct (convert_dates raw) as [df|]; [|discriminate].
  intros H Hr. inversion H; subst. unfold dropna in Hr.
  apply filter_In in Hr as [Hr Hc].
  apply In_engineer in Hr as (i & o & Hi & ->).
  now exists df, i, o.
Qed.

Lemma in_date_range_year (o : Obs) :
  in_date_range o = true -> (2015 <= ts_year (key o) <= 2016)%Z.
Proof.
  unfold in_date_range, ts_leb, window_start, window_end.
  cbn [ts_year ts_month ts_day ts_hour].
  rewrite !andb_true_iff, !orb_true_iff, !andb_true_iff, !Z.ltb_lt, !Z.eqb_eq.
  intros [H1 H2]. lia.
Qed.

(** X9.  In every row of the output the calendar columns are in range: the
    date lies in 2015 or 2016, [month] in 1..12, [day_of_week] in 0..6,
    [is_weekend] is 1 exactly on days 5 and 6 and 0 otherwise, and [season]
    is 1 for December-February, 2 for March-May, 3 for June-August and 4
    for September-November. *)
Theorem calendar_columns_in_range
        (raw : list RawRow) (out : list EngRow) (r : EngRow) :
  load_and_preprocess_data raw = Some out -> In r out ->
  (2015 <= ts_year (key (obs r)) <= 2016 /\
   1 <= month r <= 12 /\
   0 <= day_of_week r <= 6 /\
   is_weekend r = (if (5 <=? day_of_week r) then 1 else 0) /\
   season r = (if (month r =? 12) || (month r <=? 2) then 1
               else if month r <=? 5 then 2
               else if month r <=? 8 then 3 else 4))%Z.
Proof.
  intros H Hr.
  destruct (@In_load_inv raw out r H Hr) as (df & i & o & Hc & Hi & -> & _).
  apply nth_error_In in Hi. unfold filter_date_range in Hi.
  apply filter_In in Hi as [Ho Hw].
  destruct (@convert_dates_In raw df o Hc Ho) as (rr & _ & Hk).
  apply to_datetime_month_day in Hk as (Hm & _ & _).
  cbn [obs month day_of_week is_weekend season add_features].
  assert (Hd : (0 <= dayofweek (key o) < 7)%Z)
    by (unfold dayofweek; apply Z.mod_pos_bound; lia).
  split; [now apply in_date_range_year|].
  split; [exact Hm|]. split; [lia|]. split.
  - destruct (5 <=? dayofweek (key o))%Z eqn:E5;
      [apply Z.leb_le in E5 | apply Z.leb_gt in E5];
      destruct (dayofweek (key o) =? 5)%Z eqn:Ea;
      destruct (dayofweek (key o) =? 6)%Z eqn:Eb;
      try reflexivity;
      rewrite ?Z.eqb_eq, ?Z.eqb_neq in *; lia.
  - assert (Hcases : (ts_month (key o) = 1 \/ ts_month (key o) = 2 \/
                      ts_month (key o) = 3 \/ ts_month (key o) = 4 \/
                      ts_month (key o) = 5 \/ ts_month (key o) = 6 \/
                      ts_month (key o) = 7 \/ ts_month (key o) = 8 \/
                      ts_month (key o) = 9 \/ ts_month (key o) = 10 \/
                      ts_month (key o) = 11 \/ ts_month (key o) = 12)%Z) by lia.
    repeat (destruct Hcases as [E|Hcases]; [rewrite E; reflexivity|]).
    rewrite Hcases. reflexivity.
Qed.

Lemma calendar_columns_in_range_witness :
  (2015 <= ts_year (key (obs row_a)) <= 2016 /\
   1 <= month row_a <= 12 /\
   0 <= day_of_week row_a <= 6 /\
   is_weekend row_a = (if (5 <=? day_of_week row_a) then 1 else 0) /\
   season row_a = (if (month row_a =? 12) || (month row_a <=? 2) then 1
                   else if month row_a <=? 5 then 2
                   else if month row_a <=? 8 then 3 else 4))%Z.
Proof.
  apply (@calendar_columns_in_range table_a [row_a] row_a load_table_a).
  left. reflexivity.
Defined.

(** X10.  Whatever the table holds (missing values included), the output
    has at most as many rows as the input has beyond its first 168. *)
Theorem output_size_bound (raw : list RawRow) (out : list EngRow) :
  load_and_preprocess_data raw = Some out ->
  length out <= length raw - 168.
Proof.
  unfold load_and_preprocess_data.
  destruct (convert_dates raw) as [df|] eqn:Hc; [|discriminate].
  intros H. inversion H; subst; clear H.
  rewrite dropna_engineer_skip. unfold dropna.
  etransitivity; [apply filter_length_le|].
  rewrite length_skipn, engineer_length.
  pose proof (filter_length_le in_date_range df) as Hf.
  unfold filter_date_range.
  rewrite <- (convert_dates_length _ Hc). lia.
Qed.

Lemma output_size_bound_witness :
  length [row_a] <= length table_a - 168.
Proof.
  exact (@output_size_bound table_a [row_a] load_table_a).
Defined.

(** ** FeatureBuilder: what the lag and rolling columns hold *)

Lemma nth_error_imap_from (A B : Type) (f : nat -> A -> B) (l : list A) (s i : nat) :
  nth_error (imap_from f s l) i = option_map (f (s + i)) (nth_error l i).
Proof.
  revert s i; induction l as [|x t IH]; intros s [|i]; simpl; try reflexivity.
  - now rewrite Nat.add_0_r.
  - rewrite IH. now replace (S s + i) with (s + S i) by lia.
Qed.

Lemma nth_error_engineer (df : list Obs) (i : nat) :
  nth_error (engineer df) i = option_map (add_features df i) (nth_error df i).
Proof. unfold engineer. now rewrite nth_error_imap_from. Qed.

Lemma nth_irradiance (df : list Obs) (k : nat) (o : Obs) :
  nth_error df k = Some o ->
  nth k (map (@irradiance Timestamp) df) None = irradiance o.
Proof.
  intros H. apply nth_error_nth. rewrite nth_error_map.
  unfold Obs in H. now rewrite H.
Qed.

Lemma all_present_length (l : list cell) (xs : list R) :
  all_present l = Some xs -> length xs = length l.
Proof.
  revert xs; induction l as [|[x|] t IH]; simpl; intros xs H.
  - now inversion H.
  - destruct (all_present t) as [ys|]; [|discriminate].
    inversion H; subst. simpl. f_equal. now apply IH.
  - discriminate.
Qed.

(** X11.  The derived columns of row [i] of the (date-filtered) table, before
    [dropna]: the lag columns hold the target of rows [i - 1], [i - 24] and
    [i - 168], and are missing on the first 1, 24 and 168 rows; from row 23
    on, whenever the 24 targets ending at row [i] are all present, the
    rolling columns hold their mean and their sample standard deviation. *)
Theorem lag_columns_read_earlier_rows (df : list Obs) (i : nat) (r : EngRow) :
  nth_error (engineer df) i = Some r ->
  (forall o', 1 <= i -> nth_error df (i - 1) = Some o' ->
              irradiance_lag1 r = irradiance o') /\
  (forall o', 24 <= i -> nth_error df (i - 24) = Some o' ->
              irradiance_lag24 r = irradiance o') /\
  (forall o', 168 <= i -> nth_error df (i - 168) = Some o' ->
              irradiance_lag168 r = irradiance o') /\
  (i < 1 -> irradiance_lag1 r = None) /\
  (i < 24 -> irradiance_lag24 r = None) /\
  (i < 168 -> irradiance_lag168 r = None) /\
  (i < 23 -> irradiance_rolling_mean_24h r = None /\
             irradiance_rolling_std_24h r = None) /\
  (forall xs, 23 <= i ->
     all_present (map (@irradiance Timestamp) (firstn 24 (skipn (i - 23) df)))
     = Some xs ->
     length xs = 24 /\
     irradiance_rolling_mean_24h r = Some (mean xs) /\
     irradiance_rolling_std_24h r = Some (std xs)).
Proof.
  rewrite nth_error_engineer.
  destruct (nth_error df i) as [o|] eqn:Hi; [|discriminate].
  intros H. inversion H; subst r; clear H.
  assert (Hlen : i < length (map (@irradiance Timestamp) df)).
  { rewrite length_map. exact (nth_error_lt _ _ Hi). }
  cbn [irradiance_lag1 irradiance_lag24 irradiance_lag168
       irradiance_rolling_mean_24h irradiance_rolling_std_24h add_features].
  rewrite !nth_shift, !nth_rolling by exact Hlen.
  repeat split.
  - intros o' Hk Ho'. rewrite (proj2 (Nat.ltb_ge i 1)) by lia.
    now apply nth_irradiance.
  - intros o' Hk Ho'. rewrite (proj2 (Nat.ltb_ge i 24)) by lia.
    now apply nth_irradiance.
  - intros o' Hk Ho'. rewrite (proj2 (Nat.ltb_ge i 168)) by lia.
    now apply nth_irradiance.
  - intros Hk. now rewrite (proj2 (Nat.ltb_lt i 1)) by lia.
  - intros Hk. now rewrite (proj2 (Nat.ltb_lt i 24)) by lia.
  - intros Hk. now rewrite (proj2 (Nat.ltb_lt i 168)) by lia.
  - now rewrite (proj2 (Nat.leb_gt 24 (S i))) by lia.
  - now rewrite (proj2 (Nat.leb_gt 24 (S i))) by lia.
  - apply all_present_length in H0. rewrite H0, length_map, length_firstn.
    rewrite length_skipn. rewrite length_map in Hlen. unfold Obs in *. lia.
  - rewrite (proj2 (Nat.leb_le 24 (S i))) by lia. unfold window.
    replace (S i - 24) with (i - 23) by lia.
    rewrite skipn_map, firstn_map. unfold Obs in *. rewrite H0. reflexivity.
  - rewrite (proj2 (Nat.leb_le 24 (S i))) by lia. unfold window.
    replace (S i - 24) with (i - 23) by lia.
    rewrite skipn_map, firstn_map. unfold Obs in *. rewrite H0. reflexivity.
Qed.

Lemma all_present_missing (l : list cell) (k : nat) :
  nth_error l k = Some None -> all_present l = None.
Proof.
  revert k; induction l as [|[x|] t IH]; intros [|k] H; simpl in *;
    try discriminate; try reflexivity.
  now rewrite (IH k H).
Qed.

Lemma rolling_missing (stat : list R -> R) (col : list cell) (i j : nat) :
  nth_error col j = Some None -> j <= i <= j + 23 -> i < length col ->
  nth i (rolling 24 stat col) None = None.
Proof.
  intros Hj Hij Hi. rewrite nth_rolling by exact Hi.
  destruct (24 <=? S i) eqn:Hw; [|reflexivity].
  apply Nat.leb_le in Hw.
  rewrite (@all_present_missing (window 24 i col) (j - (S i - 24)));
    [reflexivity|].
  unfold window. rewrite nth_error_firstn.
  rewrite (proj2 (Nat.ltb_lt (j - (S i - 24)) 24)) by lia.
  rewrite nth_error_skipn.
  now replace (S i - 24 + (j - (S i - 24))) with j by lia.
Qed.

(** X12.  One missing target value costs more than its own row: if the
    target is missing at row [j] of the date-filtered table, then rows [j]
    to [j + 24] and row [j + 168] all hold a missing value (in the target,
    a rolling column or a lag column), so [dropna] removes each of them. *)
Theorem missing_target_removes_neighbours
        (df : list Obs) (i j : nat) (oj : Obs) (r : EngRow) :
  nth_error df j = Some oj -> irradiance oj = None ->
  nth_error (engineer df) i = Some r ->
  j <= i <= j + 24 \/ i = j + 168 ->
  complete r = false /\ ~ In r (dropna (engineer df)).
Proof.
  intros Hj Hnone Hr Hrange.
  assert (Hc : complete r = false).
  { rewrite nth_error_engineer in Hr.
    destruct (nth_error df i) as [o|] eqn:Hi; [|discriminate].
    inversion Hr; subst r; clear Hr.
    assert (Hlen : i < length (map (@irradiance Timestamp) df)).
    { rewrite length_map. exact (nth_error_lt _ _ Hi). }
    assert (Hcol : nth_error (map (@irradiance Timestamp) df) j = Some None).
    { rewrite nth_error_map. unfold Obs in Hj. now rewrite Hj, <- Hnone. }
    unfold complete, lag_rolling_present.
    cbn [irradiance_lag1 irradiance_lag24 irradiance_lag168
         irradiance_rolling_mean_24h irradiance_rolling_std_24h add_features].
    destruct (Nat.le_gt_cases i (j + 23)) as [Hnear|Hfar].
    - assert (Hij : j <= i <= j + 23) by lia.
      rewrite (@rolling_missing mean _ i j Hcol Hij Hlen).
      cbn [is_present]. now rewrite !andb_false_r.
    - destruct Hrange as [Hr24|Hr168].
      + assert (i = j + 24) by lia. subst i.
        rewrite (nth_shift 24) by exact Hlen.
        rewrite (proj2 (Nat.ltb_ge (j + 24) 24)) by lia.
        replace (j + 24 - 24) with j by lia.
        rewrite (@nth_irradiance df j oj Hj), Hnone.
        cbn [is_present]. now rewrite !andb_false_r.
      + subst i. rewrite (nth_shift 168) by exact Hlen.
        rewrite (proj2 (Nat.ltb_ge (j + 168) 168)) by lia.
        replace (j + 168 - 168) with j by lia.
        rewrite (@nth_irradiance df j oj Hj), Hnone.
        cbn [is_present]. now rewrite !andb_false_r. }
  split; [exact Hc|].
  unfold dropna. intros Hin. apply filter_In in Hin as [_ Hin]. congruence.
Qed.

Lemma missing_target_removes_neighbours_witness :
  complete (add_features gap_obs 171 (gap_row 171)) = false /\
  ~ In (add_features gap_obs 171 (gap_row 171)) (dropna (engineer gap_obs)).
Proof.
  apply (@missing_target_removes_neighbours gap_obs 171 3 (gap_row 3)
           (add_features gap_obs 171 (gap_row 171)) eq_refl eq_refl eq_refl).
  right. reflexivity.
Defined.

Lemma lag_columns_read_earlier_rows_witness :
  irradiance_lag168 row_a = irradiance (hourly_obs 0 1 (INR 0)).
Proof.
  exact (proj1 (proj2 (proj2
           (@lag_columns_read_earlier_rows obs_a 168 row_a eq_refl)))
           (hourly_obs 0 1 (INR 0)) (le_n 168) eq_refl).
Defined.

(** ** FeatureSelector: errors and the three criteria *)

Lemma get_column_None (t : Table) (c : string) :
  get_column t c = None <-> ~ In c (columns t).
Proof.
  induction t as [|[n v] rest IH]; simpl.
  - split; [intros _ []|reflexivity].
  - destruct (String.eqb n c) eqn:E.
    + apply String.eqb_eq in E. split; [discriminate|]. intros H.
      exfalso. apply H. now left.
    + apply String.eqb_neq in E. rewrite IH. tauto.
Qed.

(** X13.  When [feature_selection_analysis] returns and when it raises.
    A target that is not a column of the training table raises the
    [KeyError] of [train_data[target_col]], before any scorer runs; an
    error raised by [mutual_info_regression] (a table of fewer than four
    rows, a table with no feature column, ...) is passed on; and the call
    returns a selection exactly when the target is a column and both
    scorers return one score per feature column. *)
Theorem selection_returns_iff_scorers_accept
        (mutual_info_regression f_regression :
           list (list R) -> list R -> outcome (list cell))
        (train_data : Table) (target_col : string) :
  let fsa := feature_selection_analysis mutual_info_regression f_regression
                                        train_data target_col in
  let X := feature_matrix train_data target_col in
  let feature_cols := feature_columns train_data target_col in
  (~ In target_col (columns train_data) -> fsa = Raised KeyError) /\
  (forall y e, get_column train_data target_col = Some y ->
               mutual_info_regression X y = Raised e -> fsa = Raised e) /\
  (forall y mi_scores e,
      get_column train_data target_col = Some y ->
      mutual_info_regression X y = Returned mi_scores ->
      length mi_scores = length feature_cols ->
      f_regression X y = Raised e -> fsa = Raised e) /\
  ((exists sel, fsa = Returned sel) <->
   (exists y mi_scores f_scores,
       get_column train_data target_col = Some y /\
       mutual_info_regression X y = Returned mi_scores /\
       length mi_scores = length feature_cols /\
       f_regression X y = Returned f_scores /\
       length f_scores = length feature_cols)).
Proof.
  cbv zeta. split; [|split; [|split]].
  - intros H. apply get_column_None in H.
    unfold feature_selection_analysis. now rewrite H.
  - intros y e Hy Hmi. unfold feature_selection_analysis. now rewrite Hy, Hmi.
  - intros y ms e Hy Hmi Hl Hf. unfold feature_selection_analysis, score_frame.
    now rewrite Hy, Hmi, Hl, Nat.eqb_refl, Hf.
  - split.
    + intros [sel H]. unfold feature_selection_analysis, score_frame in H.
      destruct (get_column train_data target_col) as [y|]; [|discriminate].
      destruct (mutual_info_regression _ y) as [ms|] eqn:Hmi; [|discriminate].
      destruct (length ms =? _) eqn:El; [|discriminate].
      destruct (f_regression _ y) as [fs|] eqn:Hf; [|discriminate].
      destruct (length fs =? _) eqn:Ef; [|discriminate].
      apply Nat.eqb_eq in El, Ef. now exists y, ms, fs.
    + intros (y & ms & fs & Hy & Hmi & Hl & Hf & Hlf).
      eexists. exact (feature_selection_returns _ _ _ _ Hy Hmi Hl Hf Hlf).
Qed.

Lemma In_feature_cols_or_target (train_data : Table) (target_col c : string) :
  In c (columns train_data) ->
  In c (filter (fun c => negb (String.eqb c target_col)) (columns train_data)
        ++ [target_col]).
Proof.
  intros Hc. apply in_or_app. destruct (String.eqb c target_col) eqn:E.
  - apply String.eqb_eq in E. right. now left.
  - left. apply filter_In. split; [exact Hc|]. now rewrite E.
Qed.

(** X14.  On a table that both scorers accept, the selection contains
    every column of the table (the target included) whose absolute Pearson
    correlation with the target exceeds 0.1, whatever scores the two
    scorers return. *)
Theorem correlated_columns_selected
        (mutual_info_regression f_regression :
           list (list R) -> list R -> outcome (list cell))
        (train_data : Table) (target_col c : string) (y : list R) (v : R)
        (mi_scores f_scores : list cell) :
  get_column train_data target_col = Some y ->
  mutual_info_regression (feature_matrix train_data target_col) y =
  Returned mi_scores ->
  length mi_scores = length (feature_columns train_data target_col) ->
  f_regression (feature_matrix train_data target_col) y = Returned f_scores ->
  length f_scores = length (feature_columns train_data target_col) ->
  In c (columns train_data) ->
  pearson (column_or_empty train_data c) y = Some v ->
  (1 / 10 < Rabs v)%R ->
  exists sel,
    feature_selection_analysis mutual_info_regression f_regression
                               train_data target_col = Returned sel /\
    In c (selected_features sel).
Proof.
  intros Hy Hmi Hlmi Hf Hlf Hc Hv Habs.
  eexists. split; [exact (feature_selection_returns _ _ _ _ Hy Hmi Hlmi Hf Hlf)|].
  cbn [selected_features].
  apply nodup_In. apply in_or_app. right. apply in_or_app. left.
  apply In_passing with (v := Some (Rabs v)).
  - apply In_sort_desc. apply in_map_iff. exists c. split.
    + now rewrite Hv.
    + now apply In_feature_cols_or_target.
  - unfold above. destruct (Rlt_dec (1 / 10) (Rabs v)); [reflexivity|contradiction].
Qed.

Lemma pearson_train6_temperature :
  pearson [1; 2; 1; 2; 1; 2]%R [0; 1; 0; 1; 0; 1]%R = Some 1%R.
Proof.
  assert (H1 : ssqdm [1; 2; 1; 2; 1; 2]%R = (3 / 2)%R).
  { unfold ssqdm, mean, Rsum, Rsqr. cbn [map fold_right length INR]. field. }
  assert (H2 : ssqdm [0; 1; 0; 1; 0; 1]%R = (3 / 2)%R).
  { unfold ssqdm, mean, Rsum, Rsqr. cbn [map fold_right length INR]. field. }
  assert (H3 : covxy [1; 2; 1; 2; 1; 2]%R [0; 1; 0; 1; 0; 1]%R = (3 / 2)%R).
  { unfold covxy, mean, Rsum. cbn [map combine fold_right length INR fst snd].
    field. }
  unfold pearson. rewrite H1, H2, H3, sqrt_square by lra.
  destruct (Req_dec_T (3 / 2) 0) as [E|_]; [lra|]. f_equal. field.
Qed.

Lemma correlated_columns_selected_witness :
  exists sel,
    feature_selection_analysis checked_nan_scores checked_nan_scores
                               train6 "irradiance" = Returned sel /\
    In "Temperature"%string (selected_features sel).
Proof.
  apply (@correlated_columns_selected checked_nan_scores checked_nan_scores
           train6 "irradiance" "Temperature" [0; 1; 0; 1; 0; 1]%R 1%R
           [None] [None] eq_refl eq_refl eq_refl eq_refl eq_refl).
  - left. reflexivity.
  - exact pearson_train6_temperature.
  - rewrite Rabs_R1. lra.
Defined.

Lemma In_passing_iff (thr : R) (c : string) (ranking : list (string * cell)) :
  In c (passing thr (sort_desc ranking)) <->
  exists v, In (c, v) ranking /\ above thr v = true.
Proof.
  unfold passing. rewrite in_map_iff. split.
  - intros ([c' v] & Hc & Hin). cbn [fst] in Hc. subst c'.
    apply filter_In in Hin as [Hin Hv].
    apply (proj1 (In_sort_desc (c, v) ranking)) in Hin.
    exists v. now split.
  - intros (v & Hin & Hv). exists (c, v). split; [reflexivity|].
    apply filter_In. split; [exact (proj2 (In_sort_desc (c, v) ranking) Hin) | exact Hv].
Qed.

(** X15.  On a table that both scorers accept, the selection is exactly
    the union of the three criteria: a name is selected if and only if its
    mutual-information score exceeds 0.01, or it is a column of the
    correlation table (a feature column or the target) whose absolute
    correlation with the target exceeds 0.1, or its F-score exceeds 10.
    The sorting and the deduplication do not change the members. *)
Theorem selection_is_union_of_criteria
        (mutual_info_regression f_regression :
           list (list R) -> list R -> outcome (list cell))
        (train_data : Table) (target_col c : string) (y : list R)
        (mi_scores f_scores : list cell) :
  let feature_cols := feature_columns train_data target_col in
  let X := feature_matrix train_data target_col in
  get_column train_data target_col = Some y ->
  mutual_info_regression X y = Returned mi_scores ->
  length mi_scores = length feature_cols ->
  f_regression X y = Returned f_scores ->
  length f_scores = length feature_cols ->
  exists sel,
    feature_selection_analysis mutual_info_regression f_regression
                               train_data target_col = Returned sel /\
    (In c (selected_features sel) <->
     (exists v, In (c, v) (combine feature_cols mi_scores) /\
                above (1 / 100) v = true) \/
     (In c (feature_cols ++ [target_col]) /\
      above (1 / 10)
            (option_map Rabs (pearson (column_or_empty train_data c) y)) = true) \/
     (exists v, In (c, v) (combine feature_cols f_scores) /\
                above 10 v = true)).
Proof.
  intros feature_cols X Hy Hmi Hlmi Hf Hlf.
  eexists. split; [exact (feature_selection_returns _ _ _ _ Hy Hmi Hlmi Hf Hlf)|].
  cbn [selected_features]. unfold correlation_ranking. fold feature_cols.
  rewrite nodup_In, !in_app_iff, !In_passing_iff.
  apply or_iff_compat_l. apply or_iff_compat_r.
  split.
  - intros (v & Hin & Hv). apply in_map_iff in Hin as (c' & E & Hc').
    inversion E; subst c' v. rewrite <- in_app_iff. now split.
  - intros [Hin Hv]. eexists. split; [|exact Hv].
    apply in_map_iff. exists c. split; [reflexivity|].
    now rewrite <- in_app_iff in Hin.
Qed.

Lemma selection_is_union_of_criteria_witness :
  exists sel,
    feature_selection_analysis checked_nan_scores checked_nan_scores
                               train6 "irradiance" = Returned sel /\
    (In "Temperature"%string (selected_features sel) <->
     (exists v, In ("Temperature"%string, v)
                   (combine (feature_columns train6 "irradiance") [None]) /\
                above (1 / 100) v = true) \/
     (In "Temperature"%string
         (feature_columns train6 "irradiance" ++ ["irradiance"%string]) /\
      above (1 / 10)
            (option_map Rabs (pearson (column_or_empty train6 "Temperature")
                                      [0; 1; 0; 1; 0; 1]%R)) = true) \/
     (exists v, In ("Temperature"%string, v)
                   (combine (feature_columns train6 "irradiance") [None]) /\
                above 10 v = true)).
Proof.
  exact (@selection_is_union_of_criteria checked_nan_scores checked_nan_scores
           train6 "irradiance" "Temperature" [0; 1; 0; 1; 0; 1]%R
           [None] [None] eq_refl eq_refl eq_refl eq_refl eq_refl).
Defined.

(** ** EnsembleForecaster: the combination as a formula *)

Lemma nth_add_combine (a b : list R) (j : nat) :
  length b = length a ->
  nth j (map (fun p => fst p + snd p)%R (combine a b)) 0%R =
  (nth j a 0 + nth j b 0)%R.
Proof.
  revert b j; induction a as [|x t IH]; intros [|y u] j H; simpl in H;
    try discriminate.
  - destruct j; simpl; lra.
  - destruct j; simpl; [reflexivity|]. apply IH. lia.
Qed.

Lemma nth_scale (wi : R) (f : list R) (j : nat) :
  nth j (map (Rmult wi) f) 0%R = (wi * nth j f 0)%R.
Proof.
  revert j; induction f as [|v t IH]; intros [|j]; simpl;
    try lra; try reflexivity. apply IH.
Qed.

Lemma nth_divide (d : R) (f : list R) (j : nat) :
  nth j (map (fun v => v / d)%R f) 0%R = (nth j f 0 / d)%R.
Proof.
  revert j; induction f as [|v t IH]; intros [|j]; simpl;
    try (unfold Rdiv; ring); try reflexivity. apply IH.
Qed.

(** One turn of the accumulation loop on a forecast of the right length. *)
Lemma accumulate_step (total i : nat) (f : list R) (rest : list (list R))
      (acc : list R) :
  length f = length acc ->
  exists acc',
    accumulate total i (f :: rest) acc = accumulate total (S i) rest acc' /\
    length acc' = length acc /\
    forall j, nth j acc' 0%R =
              (nth j acc 0 +
               match nth_error weights i with
               | Some wi => wi * nth j f 0
               | None => nth j f 0 / INR total
               end)%R.
Proof.
  intros Hlen. cbn [accumulate].
  set (term := match nth_error weights i with
               | Some wi => map (Rmult wi) f
               | None => map (fun v => (v / INR total)%R) f
               end).
  assert (Hterm : length term = length acc).
  { unfold term. destruct (nth_error weights i); now rewrite length_map. }
  unfold np_iadd. rewrite Hterm, Nat.eqb_refl.
  eexists. split; [reflexivity|]. split.
  - rewrite length_map, length_combine, Hterm. apply Nat.min_id.
  - intros j. rewrite nth_add_combine by exact Hterm. f_equal.
    unfold term. destruct (nth_error weights i);
      [apply nth_scale | apply nth_divide].
Qed.

Lemma combine_three (f1 f2 f3 : list R) :
  length f2 = length f1 -> length f3 = length f1 ->
  exists r,
    combine_forecasts [f1; f2; f3] = Returned (Some r) /\
    length r = length f1 /\
    forall j, nth j r 0%R =
              (4 / 10 * nth j f1 0 + 3 / 10 * nth j f2 0 + 3 / 10 * nth j f3 0)%R.
Proof.
  intros H2 H3. unfold combine_forecasts.
  destruct (@accumulate_step 3 0 f1 [f2; f3] (repeat 0%R (length f1)))
    as (a1 & E1 & L1 & N1); [now rewrite repeat_length|].
  rewrite repeat_length in L1.
  destruct (@accumulate_step 3 1 f2 [f3] a1) as (a2 & E2 & L2 & N2);
    [congruence|].
  destruct (@accumulate_step 3 2 f3 [] a2) as (a3 & E3 & L3 & N3);
    [congruence|].
  cbn [length]. rewrite E1, E2, E3. cbn [accumulate].
  exists a3. split; [reflexivity|]. split; [congruence|].
  intros j. rewrite N3, N2, N1. cbn [nth_error weights].
  rewrite nth_repeat. lra.
Qed.

(** X16.  Three successful forecasts of one length are combined point by
    point as 0.4, 0.3 and 0.3 of the first, second and third, in the order
    in which the models were passed. *)
Theorem three_forecasts_weighted (f1 f2 f3 : list R) :
  length f2 = length f1 -> length f3 = length f1 ->
  exists r,
    combine_forecasts [f1; f2; f3] = Returned (Some r) /\
    length r = length f1 /\
    forall j, nth j r 0%R =
              (4 / 10 * nth j f1 0 + 3 / 10 * nth j f2 0 + 3 / 10 * nth j f3 0)%R.
Proof. exact (@combine_three f1 f2 f3). Qed.

Lemma three_forecasts_weighted_witness :
  exists r,
    combine_forecasts [[1; 2]; [3; 4]; [5; 6]]%R = Returned (Some r) /\
    length r = 2 /\
    forall j, nth j r 0%R =
              (4 / 10 * nth j [1; 2] 0 + 3 / 10 * nth j [3; 4] 0 +
               3 / 10 * nth j [5; 6] 0)%R.
Proof.
  exact (@three_forecasts_weighted [1; 2]%R [3; 4]%R [5; 6]%R eq_refl eq_refl).
Defined.

(** X3.  When the three models agree, the ensemble is their common
    forecast: the three weights sum to one. *)
Theorem identical_forecasts_unchanged (f : list R) :
  combine_forecasts [f; f; f] = Returned (Some f).
Proof.
  destruct (@combine_three f f f eq_refl eq_refl)
    as (r & Hr & Hlen & Hnth).
  rewrite Hr. do 2 f_equal.
  apply nth_ext with (d := 0%R) (d' := 0%R); [exact Hlen|].
  intros j _. rewrite Hnth. lra.
Qed.

(** X17.  A fourth successful forecast is added with weight 1/4 on top of
    the three positional weights, which already sum to one: the four
    weights sum to 1.25, and four agreeing models yield 1.25 times their
    common forecast. *)
Theorem four_forecasts_overweighted (f1 f2 f3 f4 : list R) :
  length f2 = length f1 -> length f3 = length f1 -> length f4 = length f1 ->
  exists r,
    combine_forecasts [f1; f2; f3; f4] = Returned (Some r) /\
    length r = length f1 /\
    (forall j, nth j r 0%R =
               (4 / 10 * nth j f1 0 + 3 / 10 * nth j f2 0 +
                3 / 10 * nth j f3 0 + nth j f4 0 / 4)%R) /\
    (f2 = f1 -> f3 = f1 -> f4 = f1 ->
     forall j, nth j r 0%R = (5 / 4 * nth j f1 0)%R).
Proof.
  intros H2 H3 H4. unfold combine_forecasts.
  destruct (@accumulate_step 4 0 f1 [f2; f3; f4] (repeat 0%R (length f1)))
    as (a1 & E1 & L1 & N1); [now rewrite repeat_length|].
  rewrite repeat_length in L1.
  destruct (@accumulate_step 4 1 f2 [f3; f4] a1) as (a2 & E2 & L2 & N2);
    [congruence|].
  destruct (@accumulate_step 4 2 f3 [f4] a2) as (a3 & E3 & L3 & N3);
    [congruence|].
  destruct (@accumulate_step 4 3 f4 [] a3) as (a4 & E4 & L4 & N4);
    [congruence|].
  cbn [length]. rewrite E1, E2, E3, E4. cbn [accumulate].
  exists a4. split; [reflexivity|]. split; [congruence|].
  assert (Hn : forall j, nth j a4 0%R =
               (4 / 10 * nth j f1 0 + 3 / 10 * nth j f2 0 +
                3 / 10 * nth j f3 0 + nth j f4 0 / 4)%R).
  { intros j. rewrite N4, N3, N2, N1. cbn [nth_error weights INR].
    rewrite nth_repeat. lra. }
  split; [exact Hn|].
  intros -> -> -> j. rewrite Hn. lra.
Qed.

Lemma four_forecasts_overweighted_witness :
  exists r,
    combine_forecasts [[8]; [8]; [8]; [8]]%R = Returned (Some r) /\
    length r = 1 /\
    (forall j, nth j r 0%R =
               (4 / 10 * nth j [8] 0 + 3 / 10 * nth j [8] 0 +
                3 / 10 * nth j [8] 0 + nth j [8] 0 / 4)%R) /\
    ([8] = [8] -> [8] = [8] -> [8] = [8] ->
     forall j, nth j r 0%R = (5 / 4 * nth j [8] 0)%R)%R.
Proof.
  exact (@four_forecasts_overweighted [8]%R [8]%R [8]%R [8]%R
           eq_refl eq_refl eq_refl).
Defined.

(** X18.  The accumulation is outside the [try]: when the second
    successful forecast has neither the length of the first nor length 1,
    the addition raises [ValueError] and [ensemble_forecast] lets it
    escape, although no model call failed. *)
Theorem mismatched_forecasts_raise
        (World Exog : Type) (models : list (Model World Exog))
        (test_exog : Exog) (n_periods : nat) (w w' : World)
        (f1 f2 : list R) (rest : list (list R)) :
  collect models test_exog n_periods w = (f1 :: f2 :: rest, w') ->
  length f2 <> length f1 -> length f2 <> 1 ->
  ensemble_forecast models test_exog n_periods w = (Raised ValueError, w').
Proof.
  intros Hc Hne H1. unfold ensemble_forecast. rewrite Hc. f_equal.
  unfold combine_forecasts.
  destruct (@accumulate_step (length (f1 :: f2 :: rest)) 0 f1 (f2 :: rest)
                             (repeat 0%R (length f1)))
    as (a1 & E1 & L1 & _); [now rewrite repeat_length|].
  rewrite repeat_length in L1. rewrite E1. cbn [accumulate nth_error weights].
  unfold np_iadd. rewrite length_map, L1.
  rewrite (proj2 (Nat.eqb_neq _ _) Hne), (proj2 (Nat.eqb_neq _ _) H1).
  reflexivity.
Qed.

Lemma mismatched_forecasts_raise_witness :
  ensemble_forecast ragged_models tt 5 0 = (Raised ValueError, 2).
Proof.
  apply (@mismatched_forecasts_raise nat unit ragged_models tt 5 0 2
           (repeat 10%R 5) [1; 2; 3]%R [] eq_refl).
  - cbn [length repeat]. lia.
  - cbn [length]. lia.
Defined.

(** X19.  For a first model whose [predict] gives the same outcome in every
    state, the fallback of [main] cannot succeed: reaching it means that
    model's call raised, and the fallback repeats the call (or finds no
    [predict] at all), so [main] raises. *)
Theorem fallback_fails_for_stateless_model
        (World Exog : Type) (m0 : Model World Exog) (rest : list (Model World Exog))
        (test_exog : Exog) (n_periods : nat) (w w' : World) :
  stateless_predict m0 ->
  ensemble_forecast (m0 :: rest) test_exog n_periods w = (Returned None, w') ->
  exists e, fst (main_forecast (m0 :: rest) test_exog n_periods w) = Raised e.
Proof.
  intros Hs H. unfold main_forecast. rewrite H. cbn [fallback].
  apply ensemble_none_all_fail in H as [Hall _]. cbn [all_fail] in Hall.
  unfold attempt in Hall.
  destruct (predict m0) as [p|] eqn:Hp.
  - unfold stateless_predict in Hs. rewrite Hp in Hs.
    specialize (Hs p eq_refl n_periods test_exog w w').
    destruct (p n_periods test_exog w) as [[f|e] w1]; [contradiction|].
    cbn [fst] in Hs. exists e. now rewrite <- Hs.
  - now exists AttributeError.
Qed.

Lemma fallback_fails_for_stateless_model_witness :
  exists e, fst (main_forecast [always_raises; always_raises] tt 5 0) = Raised e.
Proof.
  apply (@fallback_fails_for_stateless_model nat unit always_raises
           [always_raises] tt 5 0 0).
  - intros p Hp n x w w'. inversion Hp. reflexivity.
  - reflexivity.
Defined.

(** ** Error metrics *)

Lemma Rsum_nonneg (l : list R) :
  (forall x, In x l -> 0 <= x)%R -> (0 <= Rsum l)%R.
Proof.
  induction l as [|a t IH]; simpl; intros H; [lra|].
  pose proof (H a (or_introl eq_refl)).
  assert (0 <= Rsum t)%R by (apply IH; intros x Hx; apply H; now right).
  lra.
Qed.

Lemma Rsum_deviations (m : R) (l : list R) :
  Rsum (map (fun x => Rsqr (x - m)) l) =
  (Rsum (map Rsqr l) - 2 * m * Rsum l + INR (length l) * Rsqr m)%R.
Proof.
  induction l as [|a t IH]; [simpl; unfold Rsqr; ring|].
  cbn [map Rsum fold_right length]. fold (Rsum (map (fun x => Rsqr (x - m)) t)).
  fold (Rsum (map Rsqr t)). fold (Rsum t).
  rewrite IH, S_INR. unfold Rsqr. ring.
Qed.

(** The square of a mean is at most the mean of the squares. *)
Lemma sqr_mean_le_mean_sqr (l : list R) :
  l <> [] -> (Rsqr (mean l) <= mean (map Rsqr l))%R.
Proof.
  intros Hne. unfold mean. rewrite length_map.
  assert (Hn : (0 < INR (length l))%R).
  { apply lt_0_INR. destruct l; [contradiction | simpl; lia]. }
  pose proof (Rsum_sqr_nonneg (fun x => x - Rsum l / INR (length l))%R l) as Hd.
  cbv beta in Hd.
  rewrite (Rsum_deviations (Rsum l / INR (length l)) l) in Hd.
  set (n := INR (length l)) in *. set (s := Rsum l) in *.
  set (q := Rsum (map Rsqr l)) in *.
  assert (E : (q - 2 * (s / n) * s + n * Rsqr (s / n) = q - s * s / n)%R)
    by (unfold Rsqr; field; lra).
  rewrite E in Hd.
  replace (Rsqr (s / n)) with (s * s / n / n)%R by (unfold Rsqr; field; lra).
  apply Rmult_le_reg_r with n; [exact Hn|].
  replace (s * s / n / n * n)%R with (s * s / n)%R by (field; lra).
  replace (q / n * n)%R with q by (field; lra). lra.
Qed.

Lemma sq_errors_abs (y f : list R) :
  sq_errors y f = map Rsqr (abs_errors y f).
Proof.
  unfold sq_errors, abs_errors. rewrite map_map.
  apply map_ext. intros p. now rewrite <- Rsqr_abs.
Qed.

Lemma consistent_spec (y f : list R) :
  consistent y f = true <-> length y = length f /\ y <> [].
Proof.
  unfold consistent. rewrite andb_true_iff, Nat.eqb_eq, negb_true_iff, Nat.eqb_neq.
  split; intros [H1 H2]; split; try assumption.
  - intros ->. now apply H2.
  - intros H. apply H2. now destruct y.
Qed.

Lemma evaluate_consistent (y f : list R) :
  consistent y f = true ->
  exists r, r2_score y f = Returned r /\
            evaluate y f =
            Returned (mkMetrics (mean (abs_errors y f))
                                (sqrt (mean (sq_errors y f))) r).
Proof.
  intros H. unfold evaluate, mean_absolute_error, mean_squared_error.
  rewrite H. unfold r2_score. rewrite H.
  destruct (length y <? 2); [now eexists|].
  cbv zeta. destruct (Req_dec_T (ssqdm y) 0);
    [destruct (Req_dec_T (Rsum (sq_errors y f)) 0)|]; now eexists.
Qed.

(** X20.  The three metrics are computed exactly when the forecast has as
    many values as the actual series and the series is not empty; otherwise
    the evaluation raises [ValueError]. *)
Theorem evaluate_returns_iff (y_true y_pred : list R) :
  ((exists m, evaluate y_true y_pred = Returned m) <->
   length y_true = length y_pred /\ y_true <> []) /\
  (evaluate y_true y_pred = Raised ValueError <->
   ~ (length y_true = length y_pred /\ y_true <> [])).
Proof.
  rewrite <- consistent_spec.
  destruct (consistent y_true y_pred) eqn:Hc.
  - destruct (evaluate_consistent _ _ Hc) as (r & _ & E). rewrite E.
    split; split; intros H; try congruence; try (now eexists);
      try (exfalso; now apply H).
  - unfold evaluate, mean_absolute_error. rewrite Hc.
    split; split; intros H; try congruence; try reflexivity;
      try (destruct H; discriminate).
Qed.

Lemma abs_errors_self (y : list R) : abs_errors y y = map (fun _ => 0%R) y.
Proof.
  unfold abs_errors. induction y as [|a t IH]; simpl; [reflexivity|].
  rewrite IH. f_equal. cbn [fst snd].
  replace (a - a)%R with 0%R by ring. apply Rabs_R0.
Qed.

Lemma Rsum_zeros (A : Type) (l : list A) : Rsum (map (fun _ => 0%R) l) = 0%R.
Proof.
  unfold Rsum. induction l as [|a t IH]; cbn [map fold_right]; [reflexivity|].
  rewrite IH. ring.
Qed.

Lemma sq_errors_self_sum (y : list R) : Rsum (sq_errors y y) = 0%R.
Proof.
  rewrite sq_errors_abs, abs_errors_self, map_map.
  replace (map (fun _ : R => Rsqr 0) y) with (map (fun _ : R => 0%R) y)
    by (apply map_ext; intros _; unfold Rsqr; ring).
  apply Rsum_zeros.
Qed.

(** X22.  A forecast equal to the actual series scores MAE 0 and RMSE 0,
    and R-squared 1 as soon as there are two samples (NaN for a single
    sample), also when the series is constant. *)
Theorem perfect_forecast_scores (y : list R) :
  y <> [] ->
  exists m, evaluate y y = Returned m /\
            mae m = 0%R /\ rmse m = 0%R /\
            r2 m = if length y <? 2 then None else Some 1%R.
Proof.
  intros Hne.
  assert (Hc : consistent y y = true) by now apply consistent_spec.
  unfold evaluate, mean_absolute_error, mean_squared_error, r2_score.
  rewrite Hc. cbv zeta.
  assert (Ha : mean (abs_errors y y) = 0%R).
  { unfold mean. rewrite abs_errors_self, Rsum_zeros. unfold Rdiv. ring. }
  assert (Hs : mean (sq_errors y y) = 0%R).
  { unfold mean. rewrite sq_errors_self_sum. unfold Rdiv. ring. }
  rewrite sq_errors_self_sum.
  destruct (length y <? 2).
  - eexists. split; [reflexivity|]. cbn [mae rmse r2].
    rewrite Ha, Hs, sqrt_0. auto.
  - destruct (Req_dec_T (ssqdm y) 0) as [Hd|Hd].
    + destruct (Req_dec_T 0 0) as [_|Hn]; [|contradiction].
      eexists. split; [reflexivity|]. cbn [mae rmse r2].
      rewrite Ha, Hs, sqrt_0. auto.
    + eexists. split; [reflexivity|]. cbn [mae rmse r2].
      rewrite Ha, Hs, sqrt_0. repeat split. f_equal. now field.
Qed.

Lemma perfect_forecast_scores_witness :
  exists m, evaluate [3; 3]%R [3; 3]%R = Returned m /\
            mae m = 0%R /\ rmse m = 0%R /\
            r2 m = if length [3; 3]%R <? 2 then None else Some 1%R.
Proof.
  apply (@perfect_forecast_scores [3; 3]%R). discriminate.
Defined.

(** R-squared, when it is a number, never exceeds 1. *)
Lemma r2_at_most_one (y_true y_pred : list R) (m : Metrics) (v : R) :
  evaluate y_true y_pred = Returned m -> r2 m = Some v -> (v <= 1)%R.
Proof.
  unfold evaluate, mean_absolute_error, mean_squared_error, r2_score.
  destruct (consistent y_true y_pred); [|discriminate]. cbv zeta.
  destruct (length y_true <? 2).
  - intros H Hr. inversion H; subst m. discriminate.
  - destruct (Req_dec_T (ssqdm y_true) 0) as [Hd|Hd].
    + destruct (Req_dec_T (Rsum (sq_errors y_true y_pred)) 0);
        intros H Hr; inversion H; subst m; cbn [r2] in Hr;
        inversion Hr; lra.
    + intros H Hr. inversion H; subst m; cbn [r2] in Hr. inversion Hr.
      pose proof (ssqdm_nonneg y_true) as Hden.
      assert (Hnum : (0 <= Rsum (sq_errors y_true y_pred))%R).
      { apply Rsum_nonneg. intros x Hx. unfold sq_errors in Hx.
        apply in_map_iff in Hx as (p & <- & _). apply Rle_0_sqr. }
      assert (0 <= Rsum (sq_errors y_true y_pred) / ssqdm y_true)%R.
      { apply Rmult_le_pos; [exact Hnum|].
        left. apply Rinv_0_lt_compat. lra. }
      lra.
Qed.


(** X21.  Whenever the forecast has the length of the (non-empty) actual
    series, the metrics are computed, the mean absolute error is
    non-negative and never exceeds the root mean squared error, and
    R-squared, when it is a number, is at most 1. *)
Theorem metrics_bounds (y_true y_pred : list R) :
  length y_true = length y_pred -> y_true <> [] ->
  exists m, evaluate y_true y_pred = Returned m /\
            (0 <= mae m <= rmse m)%R /\
            (forall v, r2 m = Some v -> (v <= 1)%R).
Proof.
  intros Hlen Hne.
  assert (Hc : consistent y_true y_pred = true) by now apply consistent_spec.
  destruct (evaluate_consistent _ _ Hc) as (r & _ & E).
  eexists. split; [exact E|].
  split; [|intros v Hv; exact (@r2_at_most_one y_true y_pred _ v E Hv)].
  cbn [mae rmse].
  assert (Hne' : abs_errors y_true y_pred <> []).
  { unfold abs_errors. destruct y_true; [contradiction|].
    destruct y_pred; discriminate. }
  assert (Hpos : (0 <= mean (abs_errors y_true y_pred))%R).
  { unfold mean. apply Rmult_le_pos.
    - apply Rsum_nonneg. intros x Hx. unfold abs_errors in Hx.
      apply in_map_iff in Hx as (p & <- & _). apply Rabs_pos.
    - left. apply Rinv_0_lt_compat. apply lt_0_INR.
      destruct (abs_errors y_true y_pred); [contradiction | simpl; lia]. }
  split; [exact Hpos|].
  rewrite <- (sqrt_Rsqr _ Hpos). apply sqrt_le_1_alt.
  rewrite sq_errors_abs. now apply sqr_mean_le_mean_sqr.
Qed.

Lemma metrics_bounds_witness :
  exists m, evaluate [1; 2]%R [2; 4]%R = Returned m /\
            (0 <= mae m <= rmse m)%R /\
            (forall v, r2 m = Some v -> (v <= 1)%R).
Proof.
  apply (@metrics_bounds [1; 2]%R [2; 4]%R eq_refl). discriminate.
Defined.


(** ** [main]: from the forecast to the metrics *)

(** X23.  Once the ensemble has produced a forecast [f] for a non-empty test
    window, what [main] reports is the evaluation of that forecast against
    the actual target, [evaluate actual f]: the fallback is not consulted.
    If [f] has the length of the window these are the metrics MAE = mean
    of |actual - f|, RMSE = square root of the mean of (actual - f)^2 and
    the [r2_score] of the two series, with 0 <= MAE <= RMSE; if it has
    not, the evaluation raises [ValueError]. *)
Theorem main_evaluates_ensemble
        (World Exog : Type) (models : list (Model World Exog)) (test_exog : Exog)
        (actual f : list R) (w w' : World) :
  ensemble_forecast models test_exog (length actual) w = (Returned (Some f), w') ->
  actual <> [] ->
  main_evaluate actual models test_exog w = (evaluate actual f, w') /\
  (length f = length actual ->
   exists score,
     r2_score actual f = Returned score /\
     evaluate actual f =
     Returned (mkMetrics (mean (abs_errors actual f))
                         (sqrt (mean (sq_errors actual f))) score) /\
     (0 <= mean (abs_errors actual f) <= sqrt (mean (sq_errors actual f)))%R) /\
  (length f <> length actual -> evaluate actual f = Raised ValueError).
Proof.
  intros He Hne. split; [|split].
  - unfold main_evaluate, main_forecast. now rewrite He.
  - intros Hlen.
    assert (Hc : consistent actual f = true)
      by (apply consistent_spec; split; [now symmetry | exact Hne]).
    destruct (evaluate_consistent _ _ Hc) as (r & Hr & E).
    exists r. split; [exact Hr|]. split; [exact E|].
    assert (Hne' : abs_errors actual f <> []).
    { unfold abs_errors. destruct actual; [contradiction|].
      destruct f; discriminate. }
    assert (Hpos : (0 <= mean (abs_errors actual f))%R).
    { unfold mean. apply Rmult_le_pos.
      - apply Rsum_nonneg. intros x Hx. unfold abs_errors in Hx.
        apply in_map_iff in Hx as (p & <- & _). apply Rabs_pos.
      - left. apply Rinv_0_lt_compat. apply lt_0_INR.
        destruct (abs_errors actual f); [contradiction | simpl; lia]. }
    split; [exact Hpos|].
    rewrite <- (sqrt_Rsqr _ Hpos). apply sqrt_le_1_alt.
    rewrite sq_errors_abs. now apply sqr_mean_le_mean_sqr.
  - intros Hlen.
    unfold evaluate, mean_absolute_error, consistent.
    rewrite (proj2 (Nat.eqb_neq (length actual) (length f)))
      by (intros E; apply Hlen; now symmetry).
    reflexivity.
Qed.

Lemma main_evaluates_ensemble_witness :
  main_evaluate (repeat 4%R 5) one_survivor tt 0 =
  (evaluate (repeat 4%R 5) (repeat (0 + 4 / 10 * 10)%R 5), 3) /\
  (length (repeat (0 + 4 / 10 * 10)%R 5) = length (repeat 4%R 5) ->
   exists score,
     r2_score (repeat 4%R 5) (repeat (0 + 4 / 10 * 10)%R 5) = Returned score /\
     evaluate (repeat 4%R 5) (repeat (0 + 4 / 10 * 10)%R 5) =
     Returned (mkMetrics
                 (mean (abs_errors (repeat 4%R 5) (repeat (0 + 4 / 10 * 10)%R 5)))
                 (sqrt (mean (sq_errors (repeat 4%R 5)
                                        (repeat (0 + 4 / 10 * 10)%R 5))))
                 score) /\
     (0 <= mean (abs_errors (repeat 4%R 5) (repeat (0 + 4 / 10 * 10)%R 5)) <=
      sqrt (mean (sq_errors (repeat 4%R 5) (repeat (0 + 4 / 10 * 10)%R 5))))%R) /\
  (length (repeat (0 + 4 / 10 * 10)%R 5) <> length (repeat 4%R 5) ->
   evaluate (repeat 4%R 5) (repeat (0 + 4 / 10 * 10)%R 5) = Raised ValueError).
Proof.
  apply (@main_evaluates_ensemble nat unit one_survivor tt (repeat 4%R 5)
           (repeat (0 + 4 / 10 * 10)%R 5) 0 3 eq_refl).
  discriminate.
Defined.

(** ** [main]: the train/test split *)

(** X24.  The split cuts the engineered table in two, in order: the first
    [(8 * n) / 10] rows train, the rest test; nothing is lost or repeated,
    the test part of a non-empty table is never empty and holds at least a
    fifth of the rows. *)
Theorem train_test_split_partition (A : Type) (df : list A) :
  let (train, test) := train_test_split df in
  train ++ test = df /\
  length train = (8 * length df) / 10 /\
  length df <= 5 * length test /\
  (df <> [] -> test <> []).
Proof.
  unfold train_test_split, train_size.
  assert (Hle : (8 * length df) / 10 <= length df).
  { apply Nat.Div0.div_le_upper_bound. lia. }
  assert (Hlow : 10 * ((8 * length df) / 10) <= 8 * length df)
    by apply Nat.Div0.mul_div_le.
  split; [apply firstn_skipn|].
  split; [rewrite length_firstn; lia|].
  split; [rewrite length_skipn; lia|].
  intros Hne Hnil.
  apply (f_equal (@length A)) in Hnil. rewrite length_skipn in Hnil.
  cbn [length] in Hnil.
  destruct df as [|a t]; [contradiction|]. cbn [length] in *. lia.
Qed.

Lemma time_series_split_none (k n : nat) :
  time_series_split k n = None <-> k < 2 \/ n < k + 1.
Proof.
  split.
  - intros H.
    destruct (Nat.lt_ge_cases k 2) as [Hk|Hk]; [now left|].
    destruct (Nat.lt_ge_cases n (k + 1)) as [Hn|Hn]; [now right|].
    destruct (time_series_split_some Hk Hn) as (folds & E & _). congruence.
  - unfold time_series_split. intros [Hk|Hn].
    + now rewrite (proj2 (Nat.ltb_lt k 2) Hk).
    + destruct (k <? 2); [reflexivity|].
      now rewrite (proj2 (Nat.ltb_lt n (k + 1)) Hn).
Qed.

Lemma train_size_lt_six (n : nat) : train_size n < 6 <-> n < 8.
Proof.
  unfold train_size.
  pose proof (Nat.div_mod_eq (8 * n) 10) as E.
  pose proof (Nat.mod_upper_bound (8 * n) 10 ltac:(lia)) as B.
  lia.
Qed.

Lemma train_length (A : Type) (df : list A) :
  length (fst (train_test_split df)) = train_size (length df).
Proof.
  unfold train_test_split. cbn [fst]. rewrite length_firstn.
  apply Nat.min_l. unfold train_size. apply Nat.Div0.div_le_upper_bound. lia.
Qed.

(** X25.  The cross-validation that [main] runs on the training part (five
    splits) needs six training rows: on a complete table the fold split
    raises [ValueError] exactly when fewer than 176 rows lie inside the
    date window (168 go to the lags, and 80 % of the remaining rows must
    number six). *)
Theorem pipeline_needs_176_rows (raw : list RawRow) (df : list Obs) :
  convert_dates raw = Some df ->
  forallb (@row_present Z) raw = true ->
  exists out,
    load_and_preprocess_data raw = Some out /\
    (time_series_split 5 (length (fst (train_test_split out))) = None <->
     length (filter_date_range df) < 176).
Proof.
  intros Hc Hp. eexists. split; [exact (load_present _ Hc Hp)|].
  rewrite train_length, time_series_split_none, length_skipn, engineer_length.
  change (5 + 1) with 6. rewrite train_size_lt_six. lia.
Qed.

Lemma pipeline_needs_176_rows_witness :
  exists out,
    load_and_preprocess_data table_a = Some out /\
    (time_series_split 5 (length (fst (train_test_split out))) = None <->
     length (filter_date_range obs_a) < 176).
Proof.
  exact (@pipeline_needs_176_rows table_a obs_a eq_refl eq_refl).
Defined.

(** ** CrossValidator: running the folds *)

Section FoldRuns.

Variables Sample Score : Type.
Variable fit_and_score : list Sample -> list Sample -> outcome Score.

Lemma run_folds_all_succeed (folds : list (list Sample * list Sample)) :
  Forall (fold_succeeds fit_and_score) folds ->
  exists scores,
    run_folds fit_and_score folds = Returned scores /\
    Forall2 (fun f s => fit_and_score (fst f) (snd f) = Returned s) folds scores.
Proof.
  induction 1 as [|[tr va] rest [s Hs] _ (scores & Hr & Hl)]; simpl.
  - exists []. split; [reflexivity | constructor].
  - cbn [fst snd] in Hs. rewrite Hs, Hr. exists (s :: scores).
    split; [reflexivity|]. constructor; [exact Hs | exact Hl].
Qed.

Lemma run_folds_first_failure
      (pre post : list (list Sample * list Sample))
      (f : list Sample * list Sample) (e : exn) :
  Forall (fold_succeeds fit_and_score) pre ->
  fit_and_score (fst f) (snd f) = Raised e ->
  run_folds fit_and_score (pre ++ f :: post) = Raised e.
Proof.
  intros Hpre Hf. induction Hpre as [|[tr va] rest [s Hs] _ IH]; simpl.
  - destruct f as [tr va]. cbn [fst snd] in Hf. now rewrite Hf.
  - cbn [fst snd] in Hs. now rewrite Hs, IH.
Qed.

End FoldRuns.

Lemma firstn_add_split (A : Type) (m n : nat) (l : list A) :
  firstn (m + n) l = firstn m l ++ firstn n (skipn m l).
Proof.
  revert l; induction m as [|m IH]; intros [|a t]; simpl; try reflexivity.
  - now rewrite firstn_nil.
  - now rewrite IH.
Qed.

Lemma concat_windows (A : Type) (l : list A) (s t k a : nat) :
  concat (map (fun j => firstn t (skipn (s + j * t) l)) (seq a k)) =
  firstn (k * t) (skipn (s + a * t) l).
Proof.
  revert a; induction k as [|k IH]; intros a; [reflexivity|].
  cbn [seq map concat]. rewrite IH.
  replace (S k * t) with (t + k * t) by lia.
  rewrite firstn_add_split, skipn_skipn.
  do 3 f_equal. lia.
Qed.

(** The folds of [cv_slices] in closed form. *)
Lemma cv_slices_closed_form (Sample : Type) (data : list Sample) (k : nat)
      (slices : list (list Sample * list Sample)) :
  cv_slices data k = Some slices ->
  let n := length data in
  let t := n / (k + 1) in
  2 <= k /\ 0 < t /\ k * t < n /\
  slices = map (fun j => (firstn (n - k * t + j * t) data,
                          firstn t (skipn (n - k * t + j * t) data)))
               (seq 0 k).
Proof.
  unfold cv_slices. intros H. cbv zeta.
  destruct (time_series_split k (length data)) as [folds|] eqn:Hf;
    [|discriminate].
  apply time_series_split_inv in Hf. cbv zeta in Hf.
  set (n := length data) in *. set (t := n / (k + 1)) in *.
  destruct Hf as (Hk & Ht & Hkt & ->). cbn [option_map] in H.
  inversion H; subst slices; clear H.
  repeat split; try assumption.
  rewrite map_map. apply map_ext_in. intros j Hj. apply in_seq in Hj.
  assert (Hb : n - k * t + j * t + t <= n) by nia.
  cbn [fst snd]. unfold slice.
  rewrite !skipn_seq, !firstn_seq_min. cbn [Nat.add skipn].
  rewrite !iloc_seq by (fold n; lia).
  cbn [skipn]. f_equal; f_equal; lia.
Qed.

(** X26.  If the fit goes through on every fold, cross-validation returns
    the scores of the folds, one per fold and in fold order: the [j]-th
    entry is the score of the fit on the [j]-th training slice, evaluated on
    the [j]-th validation slice, and there are [n_splits] entries. *)
Theorem cv_scores_every_fold
        (Sample Score : Type)
        (fit_and_score : list Sample -> list Sample -> outcome Score)
        (data : list Sample) (n_splits : nat)
        (slices : list (list Sample * list Sample)) :
  cv_slices data n_splits = Some slices ->
  Forall (fold_succeeds fit_and_score) slices ->
  exists scores,
    cross_validation_sarimax fit_and_score data n_splits = Returned scores /\
    length scores = n_splits /\
    Forall2 (fun fold s => fit_and_score (fst fold) (snd fold) = Returned s)
            slices scores.
Proof.
  intros Hs Hall. unfold cross_validation_sarimax. rewrite Hs.
  destruct (run_folds_all_succeed Hall) as (scores & Hr & Hl).
  exists scores. split; [exact Hr|]. split; [|exact Hl].
  rewrite <- (Forall2_length Hl).
  apply cv_slices_closed_form in Hs. cbv zeta in Hs.
  destruct Hs as (_ & _ & _ & ->). now rewrite length_map, length_seq.
Qed.

Lemma cv_scores_every_fold_witness :
  exists scores,
    cross_validation_sarimax fit_succeeds (seq 0 12) 5 = Returned scores /\
    length scores = 5 /\
    Forall2 (fun fold s => fit_succeeds (fst fold) (snd fold) = Returned s)
            folds_of_12 scores.
Proof.
  apply (@cv_scores_every_fold nat nat fit_succeeds (seq 0 12) 5 folds_of_12
           eq_refl).
  repeat constructor; eexists; reflexivity.
Defined.

(** X27.  Cross-validation aborts at the first fold whose fit raises: the
    error of that fold is the result of the whole run, the scores of the
    folds before it are discarded and the folds after it are not tried. *)
Theorem cv_aborts_at_first_failure
        (Sample Score : Type)
        (fit_and_score : list Sample -> list Sample -> outcome Score)
        (data : list Sample) (n_splits : nat)
        (pre post : list (list Sample * list Sample))
        (f : list Sample * list Sample) (e : exn) :
  cv_slices data n_splits = Some (pre ++ f :: post) ->
  Forall (fold_succeeds fit_and_score) pre ->
  fit_and_score (fst f) (snd f) = Raised e ->
  cross_validation_sarimax fit_and_score data n_splits = Raised e.
Proof.
  intros Hs Hpre Hf. unfold cross_validation_sarimax. rewrite Hs.
  now apply run_folds_first_failure.
Qed.

Lemma cv_aborts_at_first_failure_witness :
  cross_validation_sarimax fit_fails_at_six (seq 0 12) 5 =
  Raised (ModelError "singular").
Proof.
  apply (@cv_aborts_at_first_failure nat nat fit_fails_at_six (seq 0 12) 5
           [([0; 1], [2; 3]); ([0; 1; 2; 3], [4; 5])]
           [([0; 1; 2; 3; 4; 5; 6; 7], [8; 9]);
            ([0; 1; 2; 3; 4; 5; 6; 7; 8; 9], [10; 11])]
           ([0; 1; 2; 3; 4; 5], [6; 7]) (ModelError "singular") eq_refl).
  - repeat constructor; eexists; reflexivity.
  - reflexivity.
Defined.

(** X28.  With fewer than two splits, or with no more rows than splits,
    cross-validation raises [ValueError] before any model is fitted. *)
Theorem cv_rejects_small_tables
        (Sample Score : Type)
        (fit_and_score : list Sample -> list Sample -> outcome Score)
        (data : list Sample) (n_splits : nat) :
  n_splits < 2 \/ length data <= n_splits ->
  cross_validation_sarimax fit_and_score data n_splits = Raised ValueError.
Proof.
  intros H. unfold cross_validation_sarimax, cv_slices.
  rewrite (proj2 (time_series_split_none n_splits (length data)));
    [reflexivity | lia].
Qed.

Lemma cv_rejects_small_tables_witness :
  cross_validation_sarimax fit_succeeds (seq 0 5) 5 = Raised ValueError.
Proof.
  apply (@cv_rejects_small_tables nat nat fit_succeeds (seq 0 5) 5).
  right. cbn [length seq]. lia.
Defined.

(** X29.  The validation slices tile the end of the table: put one after
    the other, in fold order, they are exactly the last
    [n_splits * (n / (n_splits + 1))] rows, each row once; the rows before
    them are only ever trained on. *)
Theorem validation_slices_tile_tail
        (Sample : Type) (data : list Sample) (n_splits : nat)
        (slices : list (list Sample * list Sample)) :
  cv_slices data n_splits = Some slices ->
  concat (map snd slices) =
  skipn (length data - n_splits * (length data / (n_splits + 1))) data.
Proof.
  intros Hs. apply cv_slices_closed_form in Hs. cbv zeta in Hs.
  set (n := length data) in *. set (t := n / (n_splits + 1)) in *.
  destruct Hs as (Hk & Ht & Hkt & ->).
  rewrite map_map. cbn [snd].
  rewrite (concat_windows data (n - n_splits * t) t n_splits 0).
  cbn [Nat.mul]. rewrite Nat.add_0_r.
  apply firstn_all2. rewrite length_skipn. fold n. lia.
Qed.

Lemma validation_slices_tile_tail_witness :
  concat (map snd folds_of_12) = skipn (length (seq 0 12) - 5 * (length (seq 0 12) / (5 + 1))) (seq 0 12).
Proof.
  exact (@validation_slices_tile_tail nat (seq 0 12) 5 folds_of_12 eq_refl).
Defined.

(** ** CrossValidator: the order of the folds in time *)

Lemma In_firstn_position (A : Type) (l : list A) (n : nat) (x : A) :
  In x (firstn n l) -> exists i, i < n /\ nth_error l i = Some x.
Proof.
  intros H. apply In_nth_error in H as [i Hi]. rewrite nth_error_firstn in Hi.
  destruct (i <? n) eqn:E; [|discriminate]. apply Nat.ltb_lt in E. now exists i.
Qed.

Lemma In_window_position (A : Type) (l : list A) (s t : nat) (x : A) :
  In x (firstn t (skipn s l)) -> exists j, s <= j /\ nth_error l j = Some x.
Proof.
  intros H. apply In_firstn_position in H as (i & _ & Hi).
  rewrite nth_error_skipn in Hi. exists (s + i). split; [lia | exact Hi].
Qed.

Lemma ts_ltb_later_day (y m d1 d2 h1 h2 : Z) :
  (d1 < d2)%Z ->
  ts_ltb (mkTimestamp y m d1 h1) (mkTimestamp y m d2 h2) = true.
Proof.
  intros H. unfold ts_ltb, ts_leb. cbn [ts_year ts_month ts_day ts_hour].
  rewrite !Z.ltb_irrefl, !Z.eqb_refl.
  rewrite (proj2 (Z.ltb_lt d1 d2) H).
  rewrite (proj2 (Z.ltb_ge d2 d1)) by lia.
  rewrite (proj2 (Z.eqb_neq d2 d1)) by lia.
  reflexivity.
Qed.

Lemma daily12_strictly_increasing :
  strictly_increasing (@key Timestamp) daily12.
Proof.
  intros i j a b Hij Ha Hb. unfold daily12 in Ha, Hb.
  rewrite nth_error_map, nth_error_seq in Ha, Hb.
  destruct (i <? 12); [|discriminate]. destruct (j <? 12); [|discriminate].
  cbn [option_map Nat.add] in Ha, Hb.
  injection Ha as <-. injection Hb as <-.
  apply (@ts_ltb_later_day 2015 1 (1 + Z.of_nat i) (1 + Z.of_nat j) 0 0). lia.
Qed.

(** C6 (as amended).  The folds of [cross_validation_sarimax] are the
    [n_splits] slices of [cv_slices], run in order.  Each fold trains on an
    initial segment of the table and validates on the rows that follow it
    immediately; both slices are non-empty; the training slice of the next
    fold is this fold's training slice followed by its validation slice
    (expanding window, no shuffling); and every training row stands at a
    smaller row position than every validation row of its fold.  In
    timestamps: if the timestamps of the table strictly increase with the
    position, every training timestamp is strictly less than every
    validation timestamp of the same fold. *)
Theorem folds_time_ordered
        (Sample : Type) (index : Sample -> Timestamp)
        (data : list Sample) (n_splits : nat)
        (slices : list (list Sample * list Sample)) :
  cv_slices data n_splits = Some slices ->
  (forall (Score : Type)
          (fit_and_score : list Sample -> list Sample -> outcome Score),
      cross_validation_sarimax fit_and_score data n_splits =
      run_folds fit_and_score slices) /\
  length slices = n_splits /\
  (forall tr va, In (tr, va) slices ->
     tr <> [] /\ va <> [] /\ exists rest, data = tr ++ va ++ rest) /\
  (forall k f g, nth_error slices k = Some f ->
                 nth_error slices (S k) = Some g ->
                 fst g = fst f ++ snd f) /\
  (forall tr va a b, In (tr, va) slices -> In a tr -> In b va ->
     exists i j, i < j /\ nth_error data i = Some a /\
                 nth_error data j = Some b) /\
  (strictly_increasing index data ->
   forall tr va a b, In (tr, va) slices -> In a tr -> In b va ->
     ts_ltb (index a) (index b) = true).
Proof.
  intros Hs.
  split; [intros Score fit; unfold cross_validation_sarimax; now rewrite Hs|].
  apply cv_slices_closed_form in Hs. cbv zeta in Hs.
  set (n := length data) in *. set (t := n / (n_splits + 1)) in *.
  destruct Hs as (Hk & Ht & Hkt & ->).
  assert (Hfold : forall tr va,
             In (tr, va)
                (map (fun j => (firstn (n - n_splits * t + j * t) data,
                                firstn t (skipn (n - n_splits * t + j * t) data)))
                     (seq 0 n_splits)) ->
             exists ts, 0 < ts /\ ts + t <= n /\
                        tr = firstn ts data /\ va = firstn t (skipn ts data)).
  { intros tr va H. apply in_map_iff in H as (j & E & Hj). apply in_seq in Hj.
    inversion E; subst tr va; clear E.
    exists (n - n_splits * t + j * t). repeat split; try reflexivity; nia. }
  assert (Hpos : forall tr va a b,
             In (tr, va)
                (map (fun j => (firstn (n - n_splits * t + j * t) data,
                                firstn t (skipn (n - n_splits * t + j * t) data)))
                     (seq 0 n_splits)) ->
             In a tr -> In b va ->
             exists i j, i < j /\ nth_error data i = Some a /\
                         nth_error data j = Some b).
  { intros tr va a b H Ha Hb.
    apply Hfold in H as (ts & _ & _ & -> & ->).
    apply In_firstn_position in Ha as (i & Hi & Ha).
    apply In_window_position in Hb as (j & Hj & Hb).
    exists i, j. repeat split; try assumption. lia. }
  split; [now rewrite length_map, length_seq|].
  split; [|split; [|split]].
  - intros tr va H. apply Hfold in H as (ts & Hts & Hb & -> & ->).
    repeat split.
    + intros E. apply (f_equal (@length Sample)) in E.
      rewrite length_firstn in E. cbn [length] in E. fold n in E. lia.
    + intros E. apply (f_equal (@length Sample)) in E.
      rewrite length_firstn, length_skipn in E. cbn [length] in E.
      fold n in E. lia.
    + exists (skipn t (skipn ts data)).
      now rewrite (firstn_skipn t (skipn ts data)), firstn_skipn.
  - intros k f g Hf Hg.
    rewrite nth_error_map, nth_error_seq in Hf, Hg.
    destruct (k <? n_splits); [|discriminate].
    destruct (S k <? n_splits); [|discriminate].
    cbn [option_map Nat.add] in Hf, Hg.
    inversion Hf; subst f. inversion Hg; subst g. cbn [fst snd].
    rewrite <- firstn_add_split. f_equal. lia.
  - exact Hpos.
  - intros Hinc tr va a b H Ha Hb.
    destruct (Hpos tr va a b H Ha Hb) as (i & j & Hij & Hi & Hj).
    exact (Hinc i j a b Hij Hi Hj).
Qed.

Lemma folds_time_ordered_witness :
  exists slices,
    cv_slices daily12 5 = Some slices /\
    (forall (Score : Type)
            (fit_and_score : list Obs -> list Obs -> outcome Score),
        cross_validation_sarimax fit_and_score daily12 5 =
        run_folds fit_and_score slices) /\
    length slices = 5 /\
    (forall tr va, In (tr, va) slices ->
       tr <> [] /\ va <> [] /\ exists rest, daily12 = tr ++ va ++ rest) /\
    (forall k f g, nth_error slices k = Some f ->
                   nth_error slices (S k) = Some g ->
                   fst g = fst f ++ snd f) /\
    (forall tr va a b, In (tr, va) slices -> In a tr -> In b va ->
       exists i j, i < j /\ nth_error daily12 i = Some a /\
                   nth_error daily12 j = Some b) /\
    (forall tr va a b, In (tr, va) slices -> In a tr -> In b va ->
       ts_ltb (key a) (key b) = true).
Proof.
  exists (map (fun f => (iloc daily12 (fst f), iloc daily12 (snd f))) folds_of_12).
  split; [reflexivity|].
  destruct (@folds_time_ordered Obs (@key Timestamp) daily12 5
              (map (fun f => (iloc daily12 (fst f), iloc daily12 (snd f)))
                   folds_of_12) eq_refl)
    as (H1 & H2 & H3 & H4 & H5 & H6).
  repeat split; try assumption.
  - apply (H3 tr va H).
  - apply (H3 tr va H).
  - apply (H3 tr va H).
  - exact (H6 daily12_strictly_increasing).
Defined.

(** C6 (as stated) fails.  The timestamps are parsed from the [date] column,
    which holds a day and no hour, so the rows of one day share a
    timestamp.  On the hourly table of 183 rows, [load_and_preprocess_data]
    keeps the 15 rows of 2015-01-08, [main] trains on the first 12 of
    them, and the first of the five folds trains on two rows and validates
    on the next two: the last training row and the first validation row
    carry the same timestamp, so the largest training timestamp is not
    below the smallest validation timestamp. *)
Lemma duplicate_timestamps_counterexample :
  exists out slices tr va a b,
    load_and_preprocess_data hourly183 = Some out /\
    length out = 15 /\
    cv_slices (fst (train_test_split out)) 5 = Some slices /\
    nth_error slices 0 = Some (tr, va) /\
    nth_error tr (length tr - 1) = Some a /\ In a tr /\
    nth_error va 0 = Some b /\ In b va /\
    index_of a = mkTimestamp 2015 1 8 0 /\
    index_of b = mkTimestamp 2015 1 8 0 /\
    ts_ltb (index_of a) (index_of b) = false.
Proof.
  pose (e := fun i => add_features obs183 i (hourly_obs i 1 (INR i))).
  exists (map e (seq 168 15)).
  exists (map (fun f => (map e (map (Nat.add 168) (fst f)),
                         map e (map (Nat.add 168) (snd f)))) folds_of_12).
  exists [e 168; e 169], [e 170; e 171], (e 169), (e 170).
  split.
  { rewrite (@load_present hourly183 obs183 eq_refl eq_refl).
    change (filter_date_range obs183) with obs183.
    rewrite skipn_engineer. reflexivity. }
  split; [reflexivity|].
  split; [reflexivity|].
  split; [reflexivity|].
  split; [reflexivity|].
  split; [right; now left|].
  split; [reflexivity|].
  split; [now left|].
  repeat split.
Qed.
